(** * Book catalog manager: the field / record validation module

    A shallow embedding of [modules/validation.js] (the validator table,
    [validateBook] and [validateField]) together with the parts of the
    JavaScript semantics these functions rely on: strings as sequences of
    UTF-16 code units, [RegExp.prototype.test] for the anchored patterns of
    the module, the string-to-number coercion behind [string > 0], and
    property lookup on an object literal. *)

From Stdlib Require Import List String Ascii NArith ZArith Bool Lia.
Import ListNotations.

Set Implicit Arguments.

(** ** JavaScript strings *)

Module JsString.

(** A JavaScript string is a sequence of UTF-16 code units. *)
Definition code_unit := N.
Definition jsstring := list code_unit.

(** The code units of an ASCII literal of the source. *)
Definition lit (s : string) : jsstring :=
  map N_of_ascii (list_ascii_of_string s).

Definition between (lo hi c : N) : bool := (lo <=? c)%N && (c <=? hi)%N.

(** ECMAScript [WhiteSpace]: TAB, VT, FF, SP, NBSP, ZWNBSP and the
    Unicode category Zs. *)
Definition isWhiteSpace (c : code_unit) : bool :=
  (c =? 9)%N || (c =? 11)%N || (c =? 12)%N || (c =? 32)%N || (c =? 160)%N
  || (c =? 5760)%N || between 8192 8202 c || (c =? 8239)%N
  || (c =? 8287)%N || (c =? 12288)%N || (c =? 65279)%N.

(** ECMAScript [LineTerminator]: LF, CR, LS, PS. *)
Definition isLineTerminator (c : code_unit) : bool :=
  (c =? 10)%N || (c =? 13)%N || (c =? 8232)%N || (c =? 8233)%N.

(** What [String.prototype.trim], the class [\s] and [StrWhiteSpaceChar]
    all call white space. *)
Definition isSpace (c : code_unit) : bool :=
  isWhiteSpace c || isLineTerminator c.

Fixpoint trimStart (s : jsstring) : jsstring :=
  match s with
  | [] => []
  | c :: s' => if isSpace c then trimStart s' else s
  end.

Definition trimEnd (s : jsstring) : jsstring := rev (trimStart (rev s)).

(** [String.prototype.trim]. *)
Definition trim (s : jsstring) : jsstring := trimEnd (trimStart s).

Definition isDigit (c : code_unit) : bool := between 48 57 c.

End JsString.

(** ** Regular expressions

    The patterns of the module use literals, character classes, groups,
    alternation and the quantifiers [?], [+], [*], [{n}] and [{m,n}]; each
    one is anchored with [^] and [$] and carries no flag, so that
    [pattern.test(s)] holds exactly when the whole of [s] belongs to the
    language of the pattern. *)

Module Regex.
Import JsString.

Inductive regex : Type :=
| Void
| Eps
| Class (p : code_unit -> bool)
| Cat (r1 r2 : regex)
| Alt (r1 r2 : regex)
| Star (r : regex).

(** The language of a pattern. *)
Inductive Matches : regex -> jsstring -> Prop :=
| MEps : Matches Eps []
| MClass p c : p c = true -> Matches (Class p) [c]
| MCat r1 r2 s1 s2 :
    Matches r1 s1 -> Matches r2 s2 -> Matches (Cat r1 r2) (s1 ++ s2)
| MAltL r1 r2 s : Matches r1 s -> Matches (Alt r1 r2) s
| MAltR r1 r2 s : Matches r2 s -> Matches (Alt r1 r2) s
| MStarNil r : Matches (Star r) []
| MStarApp r s1 s2 :
    Matches r s1 -> Matches (Star r) s2 -> Matches (Star r) (s1 ++ s2).

Fixpoint nullable (r : regex) : bool :=
  match r with
  | Void => false
  | Eps => true
  | Class _ => false
  | Cat r1 r2 => nullable r1 && nullable r2
  | Alt r1 r2 => nullable r1 || nullable r2
  | Star _ => true
  end.

(** Constructors that drop [Void] and [Eps] where the language allows. *)
Definition cat (r1 r2 : regex) : regex :=
  match r1, r2 with
  | Void, _ => Void
  | _, Void => Void
  | Eps, _ => r2
  | _, _ => Cat r1 r2
  end.

Definition alt (r1 r2 : regex) : regex :=
  match r1, r2 with
  | Void, _ => r2
  | _, Void => r1
  | _, _ => Alt r1 r2
  end.

(** Brzozowski derivative. *)
Fixpoint deriv (c : code_unit) (r : regex) : regex :=
  match r with
  | Void => Void
  | Eps => Void
  | Class p => if p c then Eps else Void
  | Cat r1 r2 =>
      if nullable r1
      then alt (cat (deriv c r1) r2) (deriv c r2)
      else cat (deriv c r1) r2
  | Alt r1 r2 => alt (deriv c r1) (deriv c r2)
  | Star r1 => cat (deriv c r1) (Star r1)
  end.

(** [/^r$/.test(s)] *)
Fixpoint test (r : regex) (s : jsstring) : bool :=
  match s with
  | [] => nullable r
  | c :: s' => test (deriv c r) s'
  end.

(** Derived forms. *)
Definition Chr (a : ascii) : regex := Class (N.eqb (N_of_ascii a)).
Definition Opt (r : regex) : regex := Alt Eps r.
Definition Plus (r : regex) : regex := Cat r (Star r).

Fixpoint Lit (l : list ascii) : regex :=
  match l with
  | [] => Eps
  | a :: l' => Cat (Chr a) (Lit l')
  end.

Definition Str (s : string) : regex := Lit (list_ascii_of_string s).

(** [r{n}] *)
Fixpoint Exactly (n : nat) (r : regex) : regex :=
  match n with
  | O => Eps
  | S n' => Cat r (Exactly n' r)
  end.

(** [r{0,n}] *)
Fixpoint UpTo (n : nat) (r : regex) : regex :=
  match n with
  | O => Eps
  | S n' => Opt (Cat r (UpTo n' r))
  end.

(** [r{m,n}] with [m <= n] *)
Definition Range (m n : nat) (r : regex) : regex :=
  Cat (Exactly m r) (UpTo (n - m) r).

(** Character classes of the source patterns. *)
Definition digit : code_unit -> bool := isDigit.                 (* \d, [0-9] *)
Definition upper (c : code_unit) : bool := between 65 90 c.      (* [A-Z] *)
Definition lower (c : code_unit) : bool := between 97 122 c.     (* [a-z] *)
Definition word (c : code_unit) : bool :=                        (* \w *)
  upper c || lower c || digit c || (c =? 95)%N.
Definition nonspace (c : code_unit) : bool := negb (isSpace c).  (* \S *)

End Regex.

(** ** Coercion of a string to a number

    [safeTrim(price) > 0] compares a string with a number: the relational
    operator converts the string with [StringToNumber] and compares the two
    numbers, a [NaN] operand making the comparison false.  The comparison
    with [0] only observes whether the converted value is [NaN], a zero,
    positive or negative, which is what this model computes, exactly, from
    the [StringNumericLiteral] grammar. *)

Module ToNumber.
Import JsString.

Inductive number_class : Type := NaN | Zero | Positive | Negative.

Fixpoint jseqb (s t : jsstring) : bool :=
  match s, t with
  | [], [] => true
  | c :: s', d :: t' => (c =? d)%N && jseqb s' t'
  | _, _ => false
  end.

Definition is_nil (s : jsstring) : bool :=
  match s with [] => true | _ => false end.

(** The longest prefix of [s] made of characters in [p], and the rest. *)
Fixpoint span (p : code_unit -> bool) (s : jsstring) : jsstring * jsstring :=
  match s with
  | [] => ([], [])
  | c :: s' =>
      if p c then let (l, r) := span p s' in (c :: l, r) else ([], s)
  end.

(** [s] without its first character, when that character is [k]. *)
Definition after (k : code_unit) (s : jsstring) : option jsstring :=
  match s with
  | c :: s' => if (c =? k)%N then Some s' else None
  | [] => None
  end.

Definition digit_value (c : code_unit) : Z := (Z.of_N c - 48)%Z.

(** The mathematical value of a run of decimal digits. *)
Definition digits_value (ds : jsstring) : Z :=
  fold_left (fun acc c => (10 * acc + digit_value c)%Z) ds 0%Z.

Definition isHexDigit (c : code_unit) : bool :=
  isDigit c || between 65 70 c || between 97 102 c.
Definition isOctalDigit (c : code_unit) : bool := between 48 55 c.
Definition isBinaryDigit (c : code_unit) : bool := between 48 49 c.

(** [NonDecimalIntegerLiteral]: [0x], [0o] or [0b] (either case) and at
    least one digit of that base; never signed.  Its value is zero when
    every digit is [0] and positive otherwise. *)
Definition nonDecimalIntegerLiteral (s : jsstring) : option number_class :=
  match after 48%N s with
  | Some (x :: ds) =>
      let base :=
        if (x =? 120)%N || (x =? 88)%N then Some isHexDigit
        else if (x =? 111)%N || (x =? 79)%N then Some isOctalDigit
        else if (x =? 98)%N || (x =? 66)%N then Some isBinaryDigit
        else None in
      match base with
      | Some p =>
          if negb (is_nil ds) && forallb p ds
          then Some (if forallb (N.eqb 48) ds then Zero else Positive)
          else None
      | None => None
      end
  | _ => None
  end.

(** [DecimalDigits], as their value. *)
Definition decimalDigits (s : jsstring) : option Z :=
  if negb (is_nil s) && forallb isDigit s then Some (digits_value s)
  else None.

(** What follows the mantissa: nothing, or [e]/[E] and a [SignedInteger]. *)
Definition exponentPart (s : jsstring) : option Z :=
  match s with
  | [] => Some 0%Z
  | e :: s' =>
      if (e =? 101)%N || (e =? 69)%N then
        match after 43%N s', after 45%N s' with
        | Some ds, _ => decimalDigits ds
        | None, Some ds => option_map Z.opp (decimalDigits ds)
        | None, None => decimalDigits s'
        end
      else None
  end.

(** [StrUnsignedDecimalLiteral] other than [Infinity], as a pair [(m, e)]
    standing for the mathematical value [m * 10^e]:
    [DecimalDigits . DecimalDigits? ExponentPart?],
    [. DecimalDigits ExponentPart?] or [DecimalDigits ExponentPart?]. *)
Definition unsignedDecimalLiteral (s : jsstring) : option (Z * Z) :=
  let (int, r1) := span isDigit s in
  match after 46%N r1 with
  | Some r2 =>
      let (frac, r3) := span isDigit r2 in
      if is_nil int && is_nil frac then None
      else match exponentPart r3 with
           | Some e =>
               Some (digits_value (int ++ frac), (e - Z.of_nat (List.length frac))%Z)
           | None => None
           end
  | None =>
      if is_nil int then None
      else match exponentPart r1 with
           | Some e => Some (digits_value int, e)
           | None => None
           end
  end.

(** Rounding to the nearest double, ties to even, sends [m * 10^e] to zero
    exactly when it is at most [2^-1075], half the least positive double.
    (For literals of more than twenty significant digits the standard
    leaves the last digits to the implementation; engines round
    correctly.) *)
Definition rounds_to_zero (m e : Z) : bool :=
  if (m =? 0)%Z then true
  else if (0 <=? e)%Z then false
  else (m * 2 ^ 1075 <=? 10 ^ (- e))%Z.

Definition Infinity : jsstring := lit "Infinity".

(** [StrDecimalLiteral]: an optional sign and an unsigned literal. *)
Definition decimalLiteral (s : jsstring) : number_class :=
  let (negative, u) :=
    match after 43%N s, after 45%N s with
    | Some u, _ => (false, u)
    | None, Some u => (true, u)
    | None, None => (false, s)
    end in
  let signed (c : number_class) : number_class :=
    match c with
    | Positive => if negative then Negative else Positive
    | _ => c
    end in
  if jseqb u Infinity then signed Positive
  else match unsignedDecimalLiteral u with
       | Some (m, e) => if rounds_to_zero m e then Zero else signed Positive
       | None => NaN
       end.

(** [StringToNumber]: white space around the literal is dropped, the empty
    literal is [+0], anything outside the grammar is [NaN]. *)
Definition StringToNumber (s : jsstring) : number_class :=
  let t := trim s in
  if is_nil t then Zero
  else match nonDecimalIntegerLiteral t with
       | Some c => c
       | None => decimalLiteral t
       end.

(** [s > 0] for a string [s]. *)
Definition gt_zero (s : jsstring) : bool :=
  match StringToNumber s with
  | Positive => true
  | _ => false
  end.

End ToNumber.

(** ** The string helpers of [utils/helpers]

    The validation module imports [isEmpty] and [safeTrim] from
    [stringUtils]; the values it hands them are the texts of a form:
    [undefined], [null] or a string. *)

Module Helpers.
Import JsString.

Inductive value : Type :=
| VUndefined
| VNull
| VString (s : jsstring).

(** Modelled from the spec: [stringUtils.isEmpty] of [utils/helpers] is
    not part of the sources at hand.  A value is missing when it is
    null or absent, or when nothing is left of it after the leading and
    trailing white space is removed. *)
Definition isEmpty (v : value) : bool :=
  match v with
  | VUndefined | VNull => true
  | VString s => Nat.eqb (List.length (trim s)) 0
  end.

(** Modelled from the spec: [stringUtils.safeTrim] of [utils/helpers] is
    not part of the sources at hand.  It yields the value with its leading
    and trailing white space removed; the validators call it only on
    values that are not missing. *)
Definition safeTrim (v : value) : jsstring :=
  match v with
  | VUndefined | VNull => []
  | VString s => trim s
  end.

End Helpers.

(** ** The validation module *)

Module Validation.
Import JsString Regex Helpers.
Local Open Scope string_scope.

(** *** Object literals read by key *)

(** A property of an object literal, [None] standing for [undefined]. *)
Definition own {A : Type} (o : list (string * A)) (k : string) : option A :=
  match find (fun p => String.eqb (fst p) k) o with
  | Some p => Some (snd p)
  | None => None
  end.

Definition Seq (rs : list regex) : regex := fold_right Cat Eps rs.

(** *** [patterns] *)

Module patterns.

(** [/^[A-Za-z]\d{5}$/] *)
Definition studentNumber : regex :=
  Seq [Class (fun c => upper c || lower c); Exactly 5 (Class digit)].

(** [/^[0-9-\s]+$/] *)
Definition phoneNumber : regex :=
  Plus (Class (fun c => digit c || (c =? 45)%N || isSpace c)).

(** [/^[1-9][0-9]*$/] *)
Definition pageCount : regex :=
  Seq [Class (between 49 57); Star (Class (between 48 57))].

(** [/^(https?:\/\/)?([\w\-]+\.)+[\w\-]+(\/\S* )?$/] (the source has no
    blank before the last parenthesis): an optional scheme, one or more
    labels each followed by a dot, a last label, an optional path. *)
Definition coverImageUrl : regex :=
  let label := Plus (Class (fun c => word c || (c =? 45)%N)) in
  Seq [Opt (Seq [Str "http"; Opt (Chr "s"); Str "://"]);
       Plus (Seq [label; Chr "."]);
       label;
       Opt (Seq [Chr "/"; Star (Class nonspace)])].

(** [/^\d{4}-\d{2}-\d{2}$/] *)
Definition publishDate : regex :=
  Seq [Exactly 4 (Class digit); Chr "-";
       Exactly 2 (Class digit); Chr "-";
       Exactly 2 (Class digit)].

End patterns.

(** [isbnPattern], local to [validators.isbn]:
    [/^(97(8|9))?\d{1,5}-\d{1,7}-\d{1,7}-[\dX]{1,7}$/] *)
Definition isbnPattern : regex :=
  Seq [Opt (Seq [Str "97"; Alt (Chr "8") (Chr "9")]);
       Range 1 5 (Class digit); Chr "-";
       Range 1 7 (Class digit); Chr "-";
       Range 1 7 (Class digit); Chr "-";
       Range 1 7 (Class (fun c => digit c || (c =? 88)%N))].

(** *** [messages] *)

(** A property of [messages.required] or [messages.format]: a string, or
    (for [required.detail]) an object literal of strings. *)
Inductive entry : Type :=
| Text (s : string)
| Group (props : list (string * string)).

Definition messages : list (string * list (string * entry)) :=
  [ ("required",
      [ ("title", Text "제목을 입력해주세요.");
        ("author", Text "저자를 입력해주세요.");
        ("isbn", Text "ISBN을 입력해주세요.");
        ("price", Text "가격을 입력해주세요.");
        ("publishDate", Text "출판일을 입력해주세요.");
        ("detail", Group
          [ ("description", "정보를 입력해주세요.");
            ("language", "언어를 입력해주세요.");
            ("pageCount", "페이지 수를 입력해주세요.");
            ("publisher", "출판사를 입력해주세요.");
            ("coverImageUrl", "표지 이미지 URL을 입력해주세요.");
            ("edition", "판형을 입력해주세요.") ]) ]);
    ("format",
      [ ("isbn", Text "ISBN은 하이픈을 포함한 10-13자리로 설정해주세요. 예: 978-3-16-148410-0");
        ("coverImageUrl", Text "올바른 이미지 URL 형식이 아닙니다. 예: http://example.com/image.jpg");
        ("price", Text "올바른 가격 형식이 아닙니다. 예: 10000");
        ("pageCount", Text "페이지 수는 0보다 큰 숫자여야 합니다. 예: 300") ]) ].

(** [messages.group.key] as the validators read it: the string stored
    there, and [None] ([undefined]) when [group] has no property [key].
    Both groups exist, and no validator reads the key [detail], the only
    one that holds an object. *)
Definition message_at (group key : string) : option string :=
  match own messages group with
  | Some props =>
      match own props key with
      | Some (Text s) => Some s
      | _ => None
      end
  | None => None
  end.

(** *** Validation results *)

(** [{ isValid, message, field }]; a property that is left out or holds
    [undefined] is [None]. *)
Record result : Type := mkResult {
  isValid : bool;
  message : option string;
  field : option string
}.

(** [{ isValid: true }] *)
Definition valid : result :=
  {| isValid := true; message := None; field := None |}.

(** *** [validators] *)

Module validators.

Definition title (title : value) : result :=
  if isEmpty title then
    {| isValid := false;
       message := message_at "required" "title";
       field := Some "title" |}
  else valid.

Definition isbn (isbn : value) : result :=
  if isEmpty isbn then
    {| isValid := false;
       message := message_at "required" "isbn";
       field := Some "isbn" |}
  else if negb (test isbnPattern (safeTrim isbn)) then
    {| isValid := false;
       message := message_at "format" "isbn";
       field := Some "isbn" |}
  else valid.

Definition author (author : value) : result :=
  if isEmpty author then
    {| isValid := false;
       message := message_at "required" "author";
       field := Some "author" |}
  else valid.

Definition coverImageUrl (coverImageUrl : value) : result :=
  if isEmpty coverImageUrl then
    {| isValid := false;
       message := message_at "required" "coverImageUrl";
       field := Some "coverImageUrl" |}
  else if negb (test patterns.coverImageUrl (safeTrim coverImageUrl)) then
    {| isValid := false;
       message := message_at "format" "coverImageUrl";
       field := Some "coverImageUrl" |}
  else valid.

Definition price (price : value) : result :=
  if isEmpty price then
    {| isValid := false;
       message := message_at "required" "price";
       field := Some "price" |}
  else if ToNumber.gt_zero (safeTrim price) then
    {| isValid := false;
       message := Some "가격은 0보다 큰 숫자여야 합니다.";
       field := Some "price" |}
  else valid.

Definition pageCount (pageCount : value) : result :=
  if isEmpty pageCount then
    {| isValid := false;
       message := message_at "required" "pageCount";
       field := Some "pageCount" |}
  else if negb (test patterns.pageCount (safeTrim pageCount)) then
    {| isValid := false;
       message := message_at "format" "pageCount";
       field := Some "pageCount" |}
  else valid.

Definition publishDate (publishDate : value) : result :=
  if isEmpty publishDate then
    {| isValid := false;
       message := message_at "required" "publishDate";
       field := Some "publishDate" |}
  else if negb (test patterns.publishDate (safeTrim publishDate)) then
    {| isValid := false;
       message := message_at "format" "publishDate";
       field := Some "publishDate" |}
  else valid.

Definition detail (detail : value) : result :=
  if isEmpty detail then
    {| isValid := false;
       message := message_at "required" "publishDate";
       field := Some "publishDate" |}
  else valid.

(** The object literal itself, in the order of the source. *)
Definition table : list (string * (value -> result)) :=
  [ ("title", title); ("isbn", isbn); ("author", author);
    ("coverImageUrl", coverImageUrl); ("price", price);
    ("pageCount", pageCount); ("publishDate", publishDate);
    ("detail", detail) ].

End validators.

(** *** Records *)

Module Detail.
Record t : Type := mk {
  language : value;
  pageCount : value;
  publisher : value;
  edition : value;
  coverImageUrl : value;
  description : value
}.
End Detail.

Module Book.
(** The properties [validateBook] reads from its argument; [detail] is
    [None] when the property is absent or null. *)
Record t : Type := mk {
  title : value;
  author : value;
  isbn : value;
  coverImageUrl : value;
  price : value;
  pageCount : value;
  publishDate : value;
  detail : option Detail.t
}.
End Book.

(** *** [validateBook] *)

(** The argument is [None] when [book] is absent ([!book]). *)
Definition validateBook (book : option Book.t) : result :=
  match book with
  | None =>
      {| isValid := false;
         message := Some "책 데이터가 필요합니다.";
         field := None |}
  | Some book =>
      let titleResult := validators.title (Book.title book) in
      if negb (isValid titleResult) then titleResult
      else
        let authorResult := validators.author (Book.author book) in
        if negb (isValid authorResult) then authorResult
        else
          match Book.detail book with
          | Some detail =>
              let pageCountResult :=
                validators.pageCount (Detail.pageCount detail) in
              if negb (isValid pageCountResult) then pageCountResult
              else
                let coverImageUrlResult :=
                  validators.coverImageUrl (Detail.coverImageUrl detail) in
                if negb (isValid coverImageUrlResult)
                then coverImageUrlResult
                else valid
          | None => valid
          end
  end.

(** *** [validateField] *)

(** [validators] is an object literal, so [validators[fieldName]] also
    finds what every object inherits from [Object.prototype]. *)
Definition object_prototype_keys : list string :=
  [ "constructor"; "hasOwnProperty"; "isPrototypeOf";
    "propertyIsEnumerable"; "toLocaleString"; "toString"; "valueOf";
    "__proto__"; "__defineGetter__"; "__defineSetter__";
    "__lookupGetter__"; "__lookupSetter__" ].

Inductive property : Type :=
| Validator (f : value -> result)   (* a function of the table *)
| Inherited (name : string)         (* a member of Object.prototype *)
| Undefined.

(** [validators[fieldName]] *)
Definition validators_get (fieldName : string) : property :=
  match own validators.table fieldName with
  | Some f => Validator f
  | None =>
      if existsb (String.eqb fieldName) object_prototype_keys
      then Inherited fieldName
      else Undefined
  end.

(** What a call of [validateField] produces.  An inherited member is
    truthy, so it is called like a validator; being a method of
    [Object.prototype] called without a receiver (or, for [__proto__], no
    function at all) it throws a [TypeError] or returns a value that is no
    validation result: [toString] returns the string
    ["[object Undefined]"]. *)
Inductive outcome : Type :=
| Returns (r : result)
| Foreign (member : string).

Definition validateField (fieldName : string) (value : value) : outcome :=
  match validators_get fieldName with
  | Undefined =>
      Returns {| isValid := true;
                 message := Some "알 수 없는 필드입니다.";
                 field := None |}
  | Validator validator => Returns (validator value)
  | Inherited member => Foreign member
  end.

End Validation.

(** ** Sample inputs *)

Module Samples.
Import JsString Helpers Validation.
Local Open Scope string_scope.

(** The string value with the given ASCII text. *)
Definition text (s : string) : value := VString (lit s).

(** The detail object the form builds when only the cover URL is filled. *)
Definition detail_without_pageCount : Detail.t :=
  {| Detail.language := text "";
     Detail.pageCount := text "";
     Detail.publisher := text "";
     Detail.edition := text "";
     Detail.coverImageUrl := text "http://example.com/image.jpg";
     Detail.description := text "" |}.

Definition book_of (title author : value) (detail : option Detail.t)
  : Book.t :=
  {| Book.title := title;
     Book.author := author;
     Book.isbn := text "1234";
     Book.coverImageUrl := VUndefined;
     Book.price := text "abc";
     Book.pageCount := VUndefined;
     Book.publishDate := VNull;
     Book.detail := detail |}.

End Samples.

(** ** Reference definitions

    The shapes the specification describes in words, to be compared with
    the patterns of the source, and shorthands for the statements. *)

Import JsString Regex Helpers Validation.
Local Open Scope string_scope.

(** A failure that names a field. *)
Definition failure (msg : option string) (name : string) : result :=
  {| isValid := false; message := msg; field := Some name |}.

Definition hyphen : code_unit := 45%N.

(** The number of hyphens of a string. *)
Definition hyphens (s : jsstring) : nat := count_occ N.eq_dec s hyphen.

(** The positive-integer pattern in the words of the specification: one
    non-zero leading digit followed by any digits. *)
Definition positive_integer_spec (s : jsstring) : Prop :=
  exists c ds,
    s = c :: ds /\ between 49 57 c = true /\ forallb isDigit ds = true.

(** The date pattern in the words of the specification: four digits, a
    hyphen, two digits, a hyphen, two digits, and nothing else. *)
Definition date_spec (s : jsstring) : Prop :=
  exists y m d,
    s = (y ++ [hyphen] ++ m ++ [hyphen] ++ d)%list /\
    (List.length y = 4 /\ forallb isDigit y = true) /\
    (List.length m = 2 /\ forallb isDigit m = true) /\
    (List.length d = 2 /\ forallb isDigit d = true).

(** The text of a positive whole number in decimal digits, such as
    ['10000']: digits only, one of them not [0]. *)
Definition positive_integer_text (s : jsstring) : bool :=
  forallb isDigit s && existsb (fun c => negb (c =? 48)%N) s.

(** A character of a host label, [[\w\-]]. *)
Definition label_char (c : code_unit) : bool := word c || (c =? 45)%N.

(** A last character of an ISBN, [[\dX]]. *)
Definition isbn_char (c : code_unit) : bool := digit c || (c =? 88)%N.

(** A character of a telephone number, [[0-9-\s]]. *)
Definition phone_char (c : code_unit) : bool :=
  digit c || (c =? 45)%N || isSpace c.

(** A run of [lo] to [hi] characters of the class [p]. *)
Definition run (p : code_unit -> bool) (lo hi : nat) (s : jsstring) : Prop :=
  (lo <= List.length s <= hi) /\ forallb p s = true.

(** What [isbnPattern] reads: an optional [978] or [979] glued to a first
    group of one to five digits, then two groups of one to seven digits and
    a last group of one to seven digits or [X], with a hyphen before each
    of the three. *)
Definition isbn_shape (s : jsstring) : Prop :=
  exists prefix g1 g2 g3 g4,
    s = (prefix ++ g1 ++ [hyphen] ++ g2 ++ [hyphen] ++ g3 ++ [hyphen] ++ g4)%list
    /\ (prefix = [] \/ prefix = lit "978" \/ prefix = lit "979")
    /\ run isDigit 1 5 g1 /\ run isDigit 1 7 g2 /\ run isDigit 1 7 g3
    /\ run isbn_char 1 7 g4.

(** A host label: one or more letters, digits, underscores or hyphens. *)
Definition is_label (l : jsstring) : Prop :=
  l <> [] /\ forallb label_char l = true.

(** What [patterns.coverImageUrl] reads: an optional [http://] or
    [https://], one or more labels each followed by a dot, a last label, and
    an optional path: a slash and any characters that are not white space. *)
Definition url_shape (s : jsstring) : Prop :=
  exists scheme labels last path,
    s = (scheme ++ List.concat (map (fun l => l ++ [46%N]) labels) ++ last ++ path)%list
    /\ (scheme = [] \/ scheme = lit "http://" \/ scheme = lit "https://")
    /\ labels <> [] /\ Forall is_label labels /\ is_label last
    /\ (path = [] \/
        exists p, path = 47%N :: p /\ forallb nonspace p = true).

(** The value [validateBook] hands to the validator of the given name: the
    title and the author come from the record, the page count and the cover
    URL from its detail object. *)
Definition checked_value (b : Book.t) (name : string) : value :=
  if String.eqb name "title" then Book.title b
  else if String.eqb name "author" then Book.author b
  else match Book.detail b with
       | Some d =>
           if String.eqb name "pageCount" then Detail.pageCount d
           else if String.eqb name "coverImageUrl" then Detail.coverImageUrl d
           else VUndefined
       | None => VUndefined
       end.

(** ** The form of [main.js] *)

Module Main.

(** [new FormData(elements.form)], read with [get]: the text of the first
    control of that name, [None] ([null]) when the form has none. *)
Definition FormData : Type := string -> option jsstring.

(** [formData.get(name) || ''] *)
Definition get_or_empty (formData : FormData) (name : string) : jsstring :=
  match formData name with
  | Some s => s
  | None => []
  end.

(** [formData.get(name) || null]: the empty string is falsy. *)
Definition get_or_null (formData : FormData) (name : string) : value :=
  match formData name with
  | Some (c :: s) => VString (c :: s)
  | _ => VNull
  end.

(** [getFormData]: the record handed to [validateBook].  It has no
    property [coverImageUrl] or [pageCount] of its own. *)
Definition getFormData (formData : FormData) : Book.t :=
  let title := get_or_empty formData "title" in
  let author := get_or_empty formData "author" in
  let isbn := get_or_empty formData "isbn" in
  let price := get_or_empty formData "price" in
  let publishDate := get_or_null formData "publishDate" in
  let detail :=
    {| Detail.language := VString (get_or_empty formData "language");
       Detail.pageCount := VString (get_or_empty formData "pageCount");
       Detail.publisher := VString (get_or_empty formData "publisher");
       Detail.edition := VString (get_or_empty formData "edition");
       Detail.coverImageUrl :=
         VString (get_or_empty formData "coverImageUrl");
       Detail.description :=
         VString (get_or_empty formData "description") |} in
  {| Book.title := VString (trim title);
     Book.author := VString (trim author);
     Book.isbn := VString (trim isbn);
     Book.coverImageUrl := VUndefined;
     Book.price := VString (trim price);
     Book.pageCount := VUndefined;
     Book.publishDate := publishDate;
     Book.detail := Some detail |}.

(** The validation step of [handleFormSubmit]: the form goes on to the
    API only when this result is valid; otherwise its message is shown and
    its field focused. *)
Definition validation (formData : FormData) : result :=
  validateBook (Some (getFormData formData)).

(** A form with the given texts in the four inputs that are checked and
    [rest] everywhere else. *)
Definition form_of (title author pageCount coverImageUrl : string)
           (rest : option jsstring) : FormData :=
  fun name =>
    if String.eqb name "title" then Some (lit title)
    else if String.eqb name "author" then Some (lit author)
    else if String.eqb name "pageCount" then Some (lit pageCount)
    else if String.eqb name "coverImageUrl" then Some (lit coverImageUrl)
    else rest.

End Main.

(** ** The detail validator and the detail record *)

Module DetailArgument.

(** What [validators.detail] can be handed: a text, as the other validators
    are, or the detail record its name and its comment speak of. *)
Inductive argument : Type :=
| OfText (v : value)
| OfRecord (d : Detail.t).

(** How a call ends: with a value, or with a [TypeError]. *)
Inductive completion (A : Type) : Type :=
| Normal (a : A)
| TypeError.

Arguments TypeError {A}.

(** Modelled from the spec: [stringUtils.isEmpty] of [utils/helpers] is
    not part of the sources at hand.  The spec has a value missing when it
    is null or absent, or of length zero once trimmed; the comment above the
    first use of the helper in the validation module spells the two tests
    as [!value] and [value.trim().length === 0].  A detail record is an
    object: it is not falsy and it has no method [trim], so the second test
    throws a [TypeError]. *)
Definition isEmpty (a : argument) : completion bool :=
  match a with
  | OfText v => Normal (Helpers.isEmpty v)
  | OfRecord _ => TypeError
  end.

(** [validators.detail], whatever it is handed. *)
Definition detail (detail : argument) : completion result :=
  match isEmpty detail with
  | Normal true =>
      Normal {| isValid := false;
                message := message_at "required" "publishDate";
                field := Some "publishDate" |}
  | Normal false => Normal valid
  | TypeError => TypeError
  end.



End DetailArgument.

(** ** Properties of the matcher *)

Module RegexFacts.
Import JsString Regex.
Local Open Scope list_scope.

Lemma Matches_Void s : ~ Matches Void s.
Proof. intros H; inversion H. Qed.

Lemma Matches_Eps s : Matches Eps s <-> s = [].
Proof.
  split; intros H.
  - now inversion H.
  - subst; constructor.
Qed.

Lemma Matches_Cat r1 r2 s :
  Matches (Cat r1 r2) s <->
  exists s1 s2, s = s1 ++ s2 /\ Matches r1 s1 /\ Matches r2 s2.
Proof.
  split.
  - intros H; inversion H; subst; eauto.
  - intros (s1 & s2 & -> & H1 & H2); now constructor.
Qed.

Lemma Matches_Alt r1 r2 s :
  Matches (Alt r1 r2) s <-> Matches r1 s \/ Matches r2 s.
Proof.
  split.
  - intros H; inversion H; subst; auto.
  - intros [H | H]; [now apply MAltL | now apply MAltR].
Qed.

Lemma Matches_Class p s :
  Matches (Class p) s <-> exists c, s = [c] /\ p c = true.
Proof.
  split.
  - intros H; inversion H; subst; eauto.
  - intros (c & -> & H); now constructor.
Qed.

Lemma Cat_Void_l r s : Matches (Cat Void r) s <-> Matches Void s.
Proof.
  rewrite Matches_Cat. split.
  - intros (s1 & s2 & _ & H & _). now apply Matches_Void in H.
  - intros H. now apply Matches_Void in H.
Qed.

Lemma Cat_Void_r r s : Matches (Cat r Void) s <-> Matches Void s.
Proof.
  rewrite Matches_Cat. split.
  - intros (s1 & s2 & _ & _ & H). now apply Matches_Void in H.
  - intros H. now apply Matches_Void in H.
Qed.

Lemma Cat_Eps_l r s : Matches (Cat Eps r) s <-> Matches r s.
Proof.
  rewrite Matches_Cat. split.
  - intros (s1 & s2 & -> & H1 & H2). apply Matches_Eps in H1. now subst.
  - intros H. exists [], s. repeat split; [constructor | exact H].
Qed.

Lemma cat_ok r1 r2 s : Matches (cat r1 r2) s <-> Matches (Cat r1 r2) s.
Proof.
  destruct r1, r2; simpl;
    rewrite ?Cat_Void_l, ?Cat_Void_r, ?Cat_Eps_l; reflexivity.
Qed.

Lemma alt_ok r1 r2 s : Matches (alt r1 r2) s <-> Matches (Alt r1 r2) s.
Proof.
  rewrite Matches_Alt.
  destruct r1, r2; simpl; try rewrite Matches_Alt; try tauto;
    split; auto; intros [H | H]; auto; now apply Matches_Void in H.
Qed.

Lemma nullable_ok r : nullable r = true <-> Matches r [].
Proof.
  induction r; simpl.
  - split; [discriminate | intros H; inversion H].
  - split; [constructor | reflexivity].
  - split; [discriminate | intros H; inversion H].
  - rewrite andb_true_iff, IHr1, IHr2, Matches_Cat. split.
    + intros [H1 H2]. now exists [], [].
    + intros (s1 & s2 & E & H1 & H2).
      symmetry in E; apply app_eq_nil in E as [-> ->]. now split.
  - now rewrite orb_true_iff, IHr1, IHr2, Matches_Alt.
  - split; [constructor | reflexivity].
Qed.

(** A non-empty word of [r*] starts with a non-empty word of [r]. *)
Lemma Matches_Star_cons r c s :
  Matches (Star r) (c :: s) ->
  exists s1 s2, s = s1 ++ s2 /\ Matches r (c :: s1) /\ Matches (Star r) s2.
Proof.
  intros H. remember (Star r) as r' eqn:Er. remember (c :: s) as w eqn:Ew.
  induction H; try discriminate.
  injection Er as ->.
  destruct s1 as [|c1 s1]; simpl in Ew.
  - now apply IHMatches2.
  - injection Ew as -> <-. now exists s1, s2.
Qed.

Lemma deriv_ok c r s : Matches (deriv c r) s <-> Matches r (c :: s).
Proof.
  revert s; induction r; intros s; simpl.
  - split; intros H; inversion H.
  - split; intros H; inversion H.
  - rewrite Matches_Class. destruct (p c) eqn:Ep.
    + rewrite Matches_Eps. split.
      * intros ->. now exists c.
      * intros (c' & E & _). now injection E.
    + split; [intros H; inversion H|].
      intros (c' & E & H). injection E as <- _. congruence.
  - assert (step : Matches (cat (deriv c r1) r2) s <->
                   exists s1 s2, s = s1 ++ s2 /\
                                 Matches r1 (c :: s1) /\ Matches r2 s2).
    { rewrite cat_ok, Matches_Cat.
      split; intros (s1 & s2 & E & H1 & H2); exists s1, s2;
        (repeat split; [exact E | now apply IHr1 | exact H2]). }
    rewrite Matches_Cat.
    destruct (nullable r1) eqn:En.
    + rewrite alt_ok, Matches_Alt, step, IHr2. split.
      * intros [(s1 & s2 & -> & H1 & H2) | H].
        -- now exists (c :: s1), s2.
        -- exists [], (c :: s). repeat split; [now apply nullable_ok | exact H].
      * intros (s1 & s2 & E & H1 & H2). destruct s1 as [|c1 s1]; simpl in E.
        -- right. now rewrite E.
        -- injection E as <- ->. left. now exists s1, s2.
    + rewrite step. split.
      * intros (s1 & s2 & -> & H1 & H2). now exists (c :: s1), s2.
      * intros (s1 & s2 & E & H1 & H2). destruct s1 as [|c1 s1]; simpl in E.
        -- apply nullable_ok in H1. congruence.
        -- injection E as <- ->. now exists s1, s2.
  - now rewrite alt_ok, !Matches_Alt, IHr1, IHr2.
  - rewrite cat_ok, Matches_Cat. split.
    + intros (s1 & s2 & -> & H1 & H2).
      apply (MStarApp (s1 := c :: s1)); [now apply IHr | exact H2].
    + intros H. apply Matches_Star_cons in H as (s1 & s2 & -> & H1 & H2).
      exists s1, s2. repeat split; [now apply IHr | exact H2].
Qed.

(** The matcher decides the language of the pattern. *)
Theorem test_ok r s : test r s = true <-> Matches r s.
Proof.
  revert r; induction s as [|c s IH]; intros r; simpl.
  - apply nullable_ok.
  - now rewrite IH, deriv_ok.
Qed.

(** Matching is a property of the language alone. *)
Lemma test_ext r r' :
  (forall s, Matches r s <-> Matches r' s) -> forall s, test r s = test r' s.
Proof.
  intros H s. apply eq_true_iff_eq. now rewrite !test_ok.
Qed.

Lemma Matches_Chr a s : Matches (Chr a) s <-> s = [N_of_ascii a].
Proof.
  unfold Chr. rewrite Matches_Class. split.
  - intros (c & -> & H). apply N.eqb_eq in H. now subst.
  - intros ->. exists (N_of_ascii a). split; [reflexivity | apply N.eqb_refl].
Qed.

(** Runs of one character class. *)
Lemma Matches_Star_Class p s :
  Matches (Star (Class p)) s <-> forallb p s = true.
Proof.
  split.
  - intros H. remember (Star (Class p)) as r eqn:Er.
    induction H; try discriminate; [reflexivity|].
    injection Er as ->. apply Matches_Class in H as (c & -> & Hc).
    simpl. rewrite Hc. now apply IHMatches2.
  - induction s as [|c s IH]; simpl; intros H; [constructor|].
    apply andb_true_iff in H as [Hc Hs].
    apply (MStarApp (s1 := [c])); [now constructor | now apply IH].
Qed.

Lemma Matches_Exactly_Class n p s :
  Matches (Exactly n (Class p)) s <->
  List.length s = n /\ forallb p s = true.
Proof.
  revert s; induction n as [|n IH]; intros s; simpl.
  - rewrite Matches_Eps. split.
    + now intros ->.
    + intros [H _]. now apply length_zero_iff_nil.
  - rewrite Matches_Cat. split.
    + intros (s1 & s2 & -> & H1 & H2).
      apply Matches_Class in H1 as (c & -> & Hc).
      apply IH in H2 as [<- H2]. simpl. now rewrite Hc.
    + intros [Hl Hs]. destruct s as [|c s]; [discriminate|].
      simpl in Hs. apply andb_true_iff in Hs as [Hc Hs].
      exists [c], s. repeat split; [now constructor|].
      apply IH. split; [now injection Hl | exact Hs].
Qed.

Lemma Matches_UpTo_Class n p s :
  Matches (UpTo n (Class p)) s <->
  List.length s <= n /\ forallb p s = true.
Proof.
  revert s; induction n as [|n IH]; intros s; simpl.
  - rewrite Matches_Eps. split.
    + now intros ->.
    + intros [H _]. apply length_zero_iff_nil. lia.
  - unfold Opt. rewrite Matches_Alt, Matches_Eps, Matches_Cat. split.
    + intros [-> | (s1 & s2 & -> & H1 & H2)].
      * simpl. split; [lia | reflexivity].
      * apply Matches_Class in H1 as (c & -> & Hc).
        apply IH in H2 as [Hl H2]. simpl. rewrite Hc. split; [lia | exact H2].
    + intros [Hl Hs]. destruct s as [|c s]; [now left | right].
      simpl in Hl, Hs. apply andb_true_iff in Hs as [Hc Hs].
      exists [c], s. repeat split; [now constructor|].
      apply IH. split; [lia | exact Hs].
Qed.

Lemma Matches_Range_Class m n p s :
  m <= n ->
  Matches (Range m n (Class p)) s <->
  (m <= List.length s <= n) /\ forallb p s = true.
Proof.
  intros Hmn. unfold Range. rewrite Matches_Cat. split.
  - intros (s1 & s2 & -> & H1 & H2).
    apply Matches_Exactly_Class in H1 as [L1 F1].
    apply Matches_UpTo_Class in H2 as [L2 F2].
    rewrite length_app, forallb_app, F1, F2. split; [lia | reflexivity].
  - intros [Hl Hs]. exists (firstn m s), (skipn m s).
    rewrite <- (firstn_skipn m s), forallb_app in Hs.
    apply andb_true_iff in Hs as [F1 F2].
    split; [now rewrite firstn_skipn|]. split.
    + apply Matches_Exactly_Class. split; [|exact F1].
      rewrite length_firstn. lia.
    + apply Matches_UpTo_Class. split; [|exact F2].
      rewrite length_skipn. lia.
Qed.

End RegexFacts.

(** ** Properties of the validators *)

Lemma title_result (v : value) :
  validators.title v =
  if isEmpty v then failure (Some "제목을 입력해주세요.") "title" else valid.
Proof. reflexivity. Qed.

Lemma author_result (v : value) :
  validators.author v =
  if isEmpty v then failure (Some "저자를 입력해주세요.") "author" else valid.
Proof. reflexivity. Qed.

(** The body of [validateBook] for a record that is present, with the
    two required messages read off the table. *)
Lemma validateBook_present (b : Book.t) :
  validateBook (Some b) =
  if isEmpty (Book.title b)
  then failure (Some "제목을 입력해주세요.") "title"
  else if isEmpty (Book.author b)
  then failure (Some "저자를 입력해주세요.") "author"
  else match Book.detail b with
       | None => valid
       | Some d =>
           if isValid (validators.pageCount (Detail.pageCount d))
           then if isValid (validators.coverImageUrl (Detail.coverImageUrl d))
                then valid
                else validators.coverImageUrl (Detail.coverImageUrl d)
           else validators.pageCount (Detail.pageCount d)
       end.
Proof.
  unfold validateBook. rewrite title_result, author_result.
  destruct (isEmpty (Book.title b)); [reflexivity|].
  destruct (isEmpty (Book.author b)); [reflexivity|].
  destruct (Book.detail b) as [d|]; [|reflexivity]. simpl.
  destruct (isValid (validators.pageCount (Detail.pageCount d)));
    [|reflexivity]. simpl.
  now destruct (isValid (validators.coverImageUrl (Detail.coverImageUrl d))).
Qed.

(** C3.  A record whose title and author are not empty after trimming and
    which carries no detail object passes [validateBook] with the bare
    result [{ isValid: true }], whatever its isbn, price and publishDate (and
    every other property) hold: [validateBook] calls no validator for them. *)
Theorem validateBook_without_detail (b : Book.t) :
  isEmpty (Book.title b) = false ->
  isEmpty (Book.author b) = false ->
  Book.detail b = None ->
  validateBook (Some b) = valid.
Proof.
  intros Ht Ha Hd. now rewrite validateBook_present, Ht, Ha, Hd.
Qed.

Lemma validateBook_without_detail_witness :
  validateBook
    (Some (Samples.book_of (Samples.text "Dune") (Samples.text " Herbert ")
             None)) = valid.
Proof.
  apply validateBook_without_detail; reflexivity.
Defined.

(** The isbn, price and publishDate of a record never reach the result. *)
Lemma validateBook_ignores_isbn_price_publishDate
      (b : Book.t) (isbn price publishDate : value) :
  validateBook
    (Some {| Book.title := Book.title b;
             Book.author := Book.author b;
             Book.isbn := isbn;
             Book.coverImageUrl := Book.coverImageUrl b;
             Book.price := price;
             Book.pageCount := Book.pageCount b;
             Book.publishDate := publishDate;
             Book.detail := Book.detail b |})
  = validateBook (Some b).
Proof. reflexivity. Qed.

(** C4.  [validateBook] checks the title first and the author second and
    returns at the first failure: a record whose title is empty or only
    white space gets the title's required message with field [title],
    whatever the author and the detail are; a record with a title and an
    empty or white-space author gets the author's required message with
    field [author], whatever the detail is. *)
Theorem validateBook_title_then_author (b : Book.t) :
  (isEmpty (Book.title b) = true ->
   validateBook (Some b) = failure (Some "제목을 입력해주세요.") "title") /\
  (isEmpty (Book.title b) = false ->
   isEmpty (Book.author b) = true ->
   validateBook (Some b) = failure (Some "저자를 입력해주세요.") "author").
Proof.
  rewrite validateBook_present. split.
  - intros ->. reflexivity.
  - intros -> ->. reflexivity.
Qed.

Lemma validateBook_title_then_author_witness :
  validateBook
    (Some (Samples.book_of (Samples.text "   ") VNull
             (Some Samples.detail_without_pageCount)))
  = failure (Some "제목을 입력해주세요.") "title" /\
  validateBook
    (Some (Samples.book_of (Samples.text "Dune") (Samples.text "")
             (Some Samples.detail_without_pageCount)))
  = failure (Some "저자를 입력해주세요.") "author".
Proof.
  split.
  - apply (proj1 (validateBook_title_then_author _)). reflexivity.
  - apply (proj2 (validateBook_title_then_author _)); reflexivity.
Defined.

(** Once the title is missing, no other property of the record is looked
    at: two records with the same title get the same result. *)
Lemma validateBook_title_only (b b' : Book.t) :
  isEmpty (Book.title b) = true ->
  Book.title b' = Book.title b ->
  validateBook (Some b') = validateBook (Some b).
Proof.
  intros H E. rewrite !validateBook_present, E, H. reflexivity.
Qed.

(** With a title, a missing author decides the result whatever the detail. *)
Lemma validateBook_author_only (b b' : Book.t) :
  isEmpty (Book.title b) = false ->
  isEmpty (Book.author b) = true ->
  Book.title b' = Book.title b ->
  Book.author b' = Book.author b ->
  validateBook (Some b') = validateBook (Some b).
Proof.
  intros Ht Ha Et Ea. rewrite !validateBook_present, Et, Ea, Ht, Ha.
  reflexivity.
Qed.

(** On the texts of a form ([undefined], [null] or a string), the [detail]
    validator, reached through [validateField], fails every empty value with
    the required message and the field name of [publishDate] (the very
    result [validators.publishDate] gives an empty value) and passes every
    other one. *)
Theorem detail_reuses_publishDate_message (v : value) :
  (isEmpty v = true ->
   validateField "detail" v
   = Returns (failure (Some "출판일을 입력해주세요.") "publishDate") /\
   validateField "detail" v = validateField "publishDate" v) /\
  (isEmpty v = false -> validateField "detail" v = Returns valid).
Proof.
  change (validateField "detail" v) with (Returns (validators.detail v)).
  change (validateField "publishDate" v)
    with (Returns (validators.publishDate v)).
  unfold validators.detail, validators.publishDate.
  split; intros ->; [split|]; reflexivity.
Qed.

Lemma detail_reuses_publishDate_message_witness :
  validateField "detail" (Samples.text "  ")
  = Returns (failure (Some "출판일을 입력해주세요.") "publishDate") /\
  validateField "detail" (Samples.text "x") = Returns valid.
Proof.
  split.
  - apply (proj1 (detail_reuses_publishDate_message _)). reflexivity.
  - apply (proj2 (detail_reuses_publishDate_message _)). reflexivity.
Defined.

(** On a text the wider reading of the validator is the validator of the
    table. *)
Lemma detail_on_text (v : value) :
  DetailArgument.detail (DetailArgument.OfText v)
  = DetailArgument.Normal (validators.detail v).
Proof.
  unfold DetailArgument.detail, DetailArgument.isEmpty, validators.detail.
  now destruct (isEmpty v).
Qed.


(** C10.  A price that is not empty and whose trimmed text does not compare
    greater than [0] passes: the comparison is all that stands between a
    non-empty price and [{ isValid: true }]. *)
Theorem price_not_greater_than_zero_passes (v : value) :
  isEmpty v = false ->
  ToNumber.gt_zero (safeTrim v) = false ->
  validators.price v = valid.
Proof.
  intros He Hg. unfold validators.price. now rewrite He, Hg.
Qed.

(** ... which is the case of text that is no number, of ['0'] and of the
    negative numbers. *)
Lemma price_not_greater_than_zero_passes_witness :
  validators.price (Samples.text "abc") = valid /\
  validators.price (Samples.text "0") = valid /\
  validators.price (Samples.text "-5") = valid /\
  validators.price (Samples.text " -12.50 ") = valid.
Proof.
  split; [|split; [|split]];
    apply price_not_greater_than_zero_passes; vm_compute; reflexivity.
Defined.

(** ** Properties of the patterns *)

Import RegexFacts.

(** Takes a hypothesis on a sequence of pattern pieces apart. *)
Ltac split_match :=
  repeat match goal with
    | H : Matches (Cat _ _) _ |- _ =>
        apply Matches_Cat in H as (? & ? & -> & ? & ?)
    | H : Matches (Alt _ _) _ |- _ => apply Matches_Alt in H as [? | ?]
    | H : Matches Eps _ |- _ => apply Matches_Eps in H as ->
    | H : Matches (Chr _) _ |- _ => apply Matches_Chr in H as ->
    | H : Matches (Star (Class _)) _ |- _ => apply Matches_Star_Class in H
    | H : Matches (Exactly _ (Class _)) _ |- _ =>
        apply Matches_Exactly_Class in H as [? ?]
    | H : Matches (Range _ _ (Class _)) _ |- _ =>
        apply Matches_Range_Class in H as [? ?]; [|lia]
    | H : Matches (Class _) _ |- _ =>
        apply Matches_Class in H as (? & -> & ?)
    end.

Lemma pageCount_pattern_spec (s : jsstring) :
  test patterns.pageCount s = true <-> positive_integer_spec s.
Proof.
  rewrite test_ok. unfold patterns.pageCount, Seq; cbn [fold_right]. split.
  - intros H. split_match. rewrite app_nil_r. simpl. now eexists _, _.
  - intros (c & ds & -> & Hc & Hds).
    apply (MCat (s1 := [c]) (s2 := ds)); [now constructor|].
    rewrite <- (app_nil_r ds). constructor; [|constructor].
    now apply Matches_Star_Class.
Qed.

Lemma publishDate_pattern_spec (s : jsstring) :
  test patterns.publishDate s = true <-> date_spec s.
Proof.
  rewrite test_ok. unfold patterns.publishDate, Seq; cbn [fold_right]. split.
  - intros H. split_match. rewrite app_nil_r.
    eexists _, _, _. split; [reflexivity|]. now repeat split.
  - intros (y & m & d & -> & Hy & Hm & Hd).
    repeat (constructor; [first [ now apply Matches_Exactly_Class
                                | now apply Matches_Chr ] |]).
    rewrite <- (app_nil_r d).
    constructor; [now apply Matches_Exactly_Class | constructor].
Qed.

Lemma hyphens_app (s t : jsstring) : hyphens (s ++ t)%list = hyphens s + hyphens t.
Proof. apply count_occ_app. Qed.

Lemma hyphens_class (p : code_unit -> bool) (s : jsstring) :
  p hyphen = false -> forallb p s = true -> hyphens s = 0.
Proof.
  intros Hp. induction s as [|c s IH]; simpl; [reflexivity|].
  intros H. apply andb_true_iff in H as [Hc Hs].
  unfold hyphens in *. simpl. destruct (N.eq_dec c hyphen) as [->|_].
  - congruence.
  - now apply IH.
Qed.

(** Whatever [isbnPattern] accepts has three hyphens, no more and no less:
    the optional [978]/[979] is glued to the first group of digits. *)
Lemma isbnPattern_three_hyphens (s : jsstring) :
  test isbnPattern s = true -> hyphens s = 3.
Proof.
  rewrite test_ok. unfold isbnPattern, Seq, Opt, Str; cbn [fold_right].
  cbn [list_ascii_of_string Lit].
  intros H. split_match;
    rewrite ?hyphens_app;
    repeat match goal with
      | H : forallb _ ?x = true |- _ =>
          rewrite (hyphens_class _ x (eq_refl : _ hyphen = false) H);
          clear H
      end;
    reflexivity.
Qed.

(** ** Properties of the coercion to a number *)

Lemma digit_bounds (c : code_unit) :
  isDigit c = true <-> (48 <= c <= 57)%N.
Proof.
  unfold isDigit, between. now rewrite andb_true_iff, !N.leb_le.
Qed.

Lemma digit_is_not (c k : code_unit) :
  isDigit c = true -> (k < 48 \/ 57 < k)%N -> (c =? k)%N = false.
Proof.
  intros H Hk. apply digit_bounds in H. apply N.eqb_neq. lia.
Qed.

Lemma digit_not_space (c : code_unit) : isDigit c = true -> isSpace c = false.
Proof.
  intros H. unfold isSpace, isWhiteSpace, isLineTerminator.
  rewrite !(digit_is_not _ H) by lia.
  apply digit_bounds in H. unfold between.
  replace (8192 <=? c)%N with false; [reflexivity|].
  symmetry. apply N.leb_gt. lia.
Qed.

Lemma trimStart_id (s : jsstring) :
  (forall c, In c s -> isSpace c = false) -> trimStart s = s.
Proof.
  destruct s as [|c s]; simpl; intros H; [reflexivity|].
  now rewrite (H c) by now left.
Qed.

(** Trimming leaves a text without white space as it is. *)
Lemma trim_id (s : jsstring) :
  (forall c, In c s -> isSpace c = false) -> trim s = s.
Proof.
  intros H. unfold trim, trimEnd. rewrite (trimStart_id s H).
  rewrite trimStart_id; [apply rev_involutive|].
  intros c Hc. apply H. now apply in_rev.
Qed.

Lemma trim_digits (s : jsstring) : forallb isDigit s = true -> trim s = s.
Proof.
  intros H. apply trim_id. intros c Hc. apply digit_not_space.
  rewrite forallb_forall in H. now apply H.
Qed.

Lemma span_all (p : code_unit -> bool) (s : jsstring) :
  forallb p s = true -> ToNumber.span p s = (s, []).
Proof.
  induction s as [|c s IH]; simpl; [reflexivity|].
  intros H. apply andb_true_iff in H as [-> Hs]. now rewrite IH.
Qed.

Lemma digit_value_bounds (c : code_unit) :
  isDigit c = true -> (0 <= ToNumber.digit_value c <= 9)%Z.
Proof.
  intros H. apply digit_bounds in H. unfold ToNumber.digit_value. lia.
Qed.

Lemma digits_fold_pos (s : jsstring) (acc : Z) :
  forallb isDigit s = true -> (0 < acc)%Z ->
  (0 < fold_left (fun a c => 10 * a + ToNumber.digit_value c) s acc)%Z.
Proof.
  revert acc; induction s as [|c s IH]; cbn [fold_left forallb];
    intros acc H Ha; [exact Ha|].
  apply andb_true_iff in H as [Hc Hs]. apply IH; [exact Hs|].
  apply digit_value_bounds in Hc. lia.
Qed.

Lemma digits_fold_nonzero (s : jsstring) (acc : Z) :
  forallb isDigit s = true -> (0 <= acc)%Z ->
  existsb (fun c => negb (c =? 48)%N) s = true ->
  (0 < fold_left (fun a c => 10 * a + ToNumber.digit_value c) s acc)%Z.
Proof.
  revert acc; induction s as [|c s IH]; cbn [fold_left forallb existsb];
    intros acc H Ha He; [discriminate|].
  apply andb_true_iff in H as [Hc Hs].
  destruct (c =? 48)%N eqn:E; cbn [negb orb] in He.
  - apply IH; [exact Hs | | exact He].
    apply digit_value_bounds in Hc. lia.
  - apply digits_fold_pos; [exact Hs|].
    apply N.eqb_neq in E. apply digit_bounds in Hc.
    unfold ToNumber.digit_value. lia.
Qed.

Lemma nonDecimal_digits (s : jsstring) :
  forallb isDigit s = true -> ToNumber.nonDecimalIntegerLiteral s = None.
Proof.
  intros H. unfold ToNumber.nonDecimalIntegerLiteral, ToNumber.after.
  destruct s as [|c [|x s]]; [reflexivity | now destruct (c =? 48)%N |].
  destruct (c =? 48)%N; [|reflexivity].
  simpl in H. apply andb_true_iff in H as [_ H].
  apply andb_true_iff in H as [Hx _].
  now rewrite !(digit_is_not _ Hx) by lia.
Qed.

Lemma decimalLiteral_digits (c : code_unit) (s : jsstring) :
  forallb isDigit (c :: s) = true ->
  ToNumber.decimalLiteral (c :: s) =
  if (ToNumber.digits_value (c :: s) =? 0)%Z
  then ToNumber.Zero else ToNumber.Positive.
Proof.
  intros H. pose proof H as Hall.
  cbn [forallb] in H. apply andb_true_iff in H as [Hc Hs].
  unfold ToNumber.decimalLiteral, ToNumber.after.
  rewrite !(digit_is_not _ Hc) by lia.
  change (ToNumber.jseqb (c :: s) ToNumber.Infinity)
    with ((c =? 73)%N && ToNumber.jseqb s (lit "nfinity")).
  rewrite (digit_is_not _ Hc) by lia. cbn [andb].
  unfold ToNumber.unsignedDecimalLiteral.
  rewrite (span_all _ _ Hall).
  cbn [ToNumber.after ToNumber.is_nil ToNumber.exponentPart].
  unfold ToNumber.rounds_to_zero.
  now destruct (ToNumber.digits_value (c :: s) =? 0)%Z.
Qed.

(** A positive whole number compares greater than [0]. *)
Lemma gt_zero_positive_integer (s : jsstring) :
  positive_integer_text s = true -> ToNumber.gt_zero s = true.
Proof.
  unfold positive_integer_text. intros H.
  apply andb_true_iff in H as [Hd Hn].
  assert (Hv : (0 < ToNumber.digits_value s)%Z)
    by (apply digits_fold_nonzero; [exact Hd | lia | exact Hn]).
  unfold ToNumber.gt_zero, ToNumber.StringToNumber.
  rewrite (trim_digits _ Hd), (nonDecimal_digits _ Hd).
  destruct s as [|c s]; [discriminate|].
  rewrite (decimalLiteral_digits _ _ Hd). cbn [ToNumber.is_nil].
  destruct (ToNumber.digits_value (c :: s) =? 0)%Z eqn:E; [|reflexivity].
  apply Z.eqb_eq in E. lia.
Qed.

(** X7.  Every positive whole number is turned down as a price, with the
    message that asks for a number greater than [0]. *)
Lemma price_rejects_positive_integers (s : jsstring) :
  positive_integer_text s = true ->
  validators.price (VString s)
  = failure (Some "가격은 0보다 큰 숫자여야 합니다.") "price".
Proof.
  intros H. unfold validators.price, isEmpty, safeTrim.
  assert (Hd : forallb isDigit s = true)
    by (unfold positive_integer_text in H; now apply andb_true_iff in H).
  rewrite (trim_digits _ Hd), (gt_zero_positive_integer _ H).
  destruct s; [discriminate | reflexivity].
Qed.

Lemma trimStart_snoc (s : jsstring) (c : code_unit) :
  isSpace c = false -> trimStart (s ++ [c])%list = (trimStart s ++ [c])%list.
Proof.
  intros H. induction s as [|a s IH]; simpl.
  - now rewrite H.
  - now destruct (isSpace a).
Qed.

(** Trimming keeps a leading minus sign. *)
Lemma trim_minus (s : jsstring) :
  exists s', trim (hyphen :: s) = hyphen :: s'.
Proof.
  exists (rev (trimStart (rev s))).
  unfold trim, trimEnd.
  change (trimStart (hyphen :: s)) with (hyphen :: s).
  cbn [rev]. rewrite trimStart_snoc by reflexivity.
  now rewrite rev_unit.
Qed.

(** A text that starts with a minus sign never compares greater than [0]:
    it converts to a negative number, to a zero or to [NaN]. *)
Lemma gt_zero_minus (s : jsstring) : ToNumber.gt_zero (hyphen :: s) = false.
Proof.
  unfold ToNumber.gt_zero, ToNumber.StringToNumber.
  destruct (trim_minus s) as [s' ->].
  change (ToNumber.is_nil (hyphen :: s')) with false.
  change (ToNumber.nonDecimalIntegerLiteral (hyphen :: s'))
    with (@None ToNumber.number_class).
  cbv iota. unfold ToNumber.decimalLiteral.
  change (ToNumber.after 43%N (hyphen :: s')) with (@None jsstring).
  change (ToNumber.after 45%N (hyphen :: s')) with (Some s').
  cbv iota.
  destruct (ToNumber.jseqb s' ToNumber.Infinity); [reflexivity|].
  destruct (ToNumber.unsignedDecimalLiteral s') as [[m e]|]; [|reflexivity].
  now destruct (ToNumber.rounds_to_zero m e).
Qed.

(** ** The price check *)

(** C1.  The price of the module's own example, ['10000'], is not empty and
    compares greater than [0], so the branch after the required check is
    taken: the validator returns a failure whose message asks for a number
    greater than [0], where the specification expects [{ isValid: true }]. *)
Theorem price_rejects_positive_number :
  isEmpty (Samples.text "10000") = false /\
  ToNumber.gt_zero (safeTrim (Samples.text "10000")) = true /\
  validators.price (Samples.text "10000")
  = failure (Some "가격은 0보다 큰 숫자여야 합니다.") "price".
Proof. repeat split. Qed.

(** X8.  Every price written with a leading minus sign passes. *)
Lemma price_accepts_negative_numbers (s : jsstring) :
  validators.price (VString (hyphen :: s)) = valid.
Proof.
  unfold validators.price, isEmpty, safeTrim.
  destruct (trim_minus s) as [s' ->].
  now rewrite gt_zero_minus.
Qed.

(** ** The isbn check *)

(** C2.  The ISBN the format message gives as its example has four hyphens
    and is turned down with that very message, like ['1234']. *)
Theorem isbn_example_rejected :
  validateField "isbn" (Samples.text "978-3-16-148410-0")
  = Returns
      (failure
         (Some "ISBN은 하이픈을 포함한 10-13자리로 설정해주세요. 예: 978-3-16-148410-0")
         "isbn") /\
  validateField "isbn" (Samples.text "1234")
  = Returns
      (failure
         (Some "ISBN은 하이픈을 포함한 10-13자리로 설정해주세요. 예: 978-3-16-148410-0")
         "isbn").
Proof. split; vm_compute; reflexivity. Qed.

(** X2.  An isbn that passes has exactly three hyphens once trimmed, so no
    text with four hyphens passes. *)
Lemma isbn_needs_three_hyphens (v : value) :
  isValid (validators.isbn v) = true -> hyphens (safeTrim v) = 3.
Proof.
  unfold validators.isbn. destruct (isEmpty v); [discriminate|].
  destruct (test isbnPattern (safeTrim v)) eqn:E; [|discriminate].
  intros _. now apply isbnPattern_three_hyphens.
Qed.

(** ** The checks on the detail object *)

(** The required message of the page count is read at
    [messages.required.pageCount]; the table keeps it one level down, under
    [messages.required.detail], and the same holds for the cover URL. *)
Lemma required_messages_of_detail :
  message_at "required" "pageCount" = None /\
  message_at "required" "coverImageUrl" = None /\
  own messages "required" <> None.
Proof. repeat split; discriminate. Qed.

Lemma pageCount_result (v : value) :
  validators.pageCount v =
  if isEmpty v then failure None "pageCount"
  else if test patterns.pageCount (safeTrim v) then valid
  else failure (Some "페이지 수는 0보다 큰 숫자여야 합니다. 예: 300") "pageCount".
Proof.
  unfold validators.pageCount.
  destruct (isEmpty v); [reflexivity|].
  now destruct (test patterns.pageCount (safeTrim v)).
Qed.

(** C5.  A record with a title, an author and a detail object whose page
    count is empty (what the form sends when the input is left blank) fails
    with field [pageCount] but carries no message at all. *)
Theorem validateBook_empty_pageCount_has_no_message :
  validateBook
    (Some (Samples.book_of (Samples.text "Dune") (Samples.text "Herbert")
             (Some Samples.detail_without_pageCount)))
  = {| isValid := false; message := None; field := Some "pageCount" |}.
Proof. reflexivity. Qed.

Section DetailChecks.

Variable b : Book.t.
Variable d : Detail.t.
Hypothesis title_given : isEmpty (Book.title b) = false.
Hypothesis author_given : isEmpty (Book.author b) = false.
Hypothesis detail_given : Book.detail b = Some d.

(** With title and author in place and a detail object present, the page
    count is checked first and the cover URL second. *)
Lemma validateBook_detail_order :
  validateBook (Some b) =
  if isValid (validators.pageCount (Detail.pageCount d))
  then if isValid (validators.coverImageUrl (Detail.coverImageUrl d))
       then valid
       else validators.coverImageUrl (Detail.coverImageUrl d)
  else validators.pageCount (Detail.pageCount d).
Proof.
  now rewrite validateBook_present, title_given, author_given, detail_given.
Qed.

(** An empty page count: the failure names the field and has no message,
    whatever the cover URL is. *)
Lemma validateBook_pageCount_missing :
  isEmpty (Detail.pageCount d) = true ->
  validateBook (Some b) = failure None "pageCount".
Proof.
  intros H. now rewrite validateBook_detail_order, pageCount_result, H.
Qed.

(** A page count that is not a positive integer: the format message of the
    page count, whatever the cover URL is. *)
Lemma validateBook_pageCount_format :
  isEmpty (Detail.pageCount d) = false ->
  ~ positive_integer_spec (safeTrim (Detail.pageCount d)) ->
  validateBook (Some b)
  = failure (Some "페이지 수는 0보다 큰 숫자여야 합니다. 예: 300") "pageCount".
Proof.
  intros He Hn. rewrite validateBook_detail_order, pageCount_result, He.
  destruct (test patterns.pageCount (safeTrim (Detail.pageCount d))) eqn:E;
    [|reflexivity].
  now apply pageCount_pattern_spec in E.
Qed.

(** A good page count hands the decision to the cover URL. *)
Lemma validateBook_coverImageUrl_second :
  isEmpty (Detail.pageCount d) = false ->
  positive_integer_spec (safeTrim (Detail.pageCount d)) ->
  validateBook (Some b) =
  if isValid (validators.coverImageUrl (Detail.coverImageUrl d))
  then valid
  else validators.coverImageUrl (Detail.coverImageUrl d).
Proof.
  intros He Hp. apply pageCount_pattern_spec in Hp.
  now rewrite validateBook_detail_order, pageCount_result, He, Hp.
Qed.

End DetailChecks.

(** ** The shape of the results *)

(** C6.  Three failures that carry no message: a publish date in the wrong
    format, an empty page count and an empty cover URL all give
    [isValid: false] with [message] undefined. *)
Theorem failure_without_message :
  (isValid (validators.publishDate (Samples.text "2024/01/15")) = false /\
   message (validators.publishDate (Samples.text "2024/01/15")) = None) /\
  (isValid (validators.pageCount (Samples.text "")) = false /\
   message (validators.pageCount (Samples.text "")) = None) /\
  (isValid (validators.coverImageUrl VNull) = false /\
   message (validators.coverImageUrl VNull) = None).
Proof. repeat split. Qed.

(** X15.  The failures of the title, isbn, author, price and detail
    validators always carry a message. *)
Lemma failure_has_message (name : string) (f : value -> result) (v : value) :
  In (name, f)
     [ ("title", validators.title); ("isbn", validators.isbn);
       ("author", validators.author); ("price", validators.price);
       ("detail", validators.detail) ] ->
  isValid (f v) = false -> message (f v) <> None.
Proof.
  intros Hin.
  repeat (destruct Hin as [E | Hin]; [injection E as _ <- |]);
    try contradiction.
  - unfold validators.title. now destruct (isEmpty v).
  - unfold validators.isbn. destruct (isEmpty v); [easy|].
    now destruct (test isbnPattern (safeTrim v)).
  - unfold validators.author. now destruct (isEmpty v).
  - unfold validators.price. destruct (isEmpty v); [easy|].
    now destruct (ToNumber.gt_zero (safeTrim v)).
  - unfold validators.detail. now destruct (isEmpty v).
Qed.

(** Every failure of a field validator names a field, and every passing
    result is the bare [{ isValid: true }]. *)
Lemma field_validator_result (name : string) (f : value -> result)
      (v : value) :
  In (name, f) validators.table ->
  (isValid (f v) = false /\ field (f v) <> None) \/ f v = valid.
Proof.
  intros Hin. unfold validators.table in Hin.
  repeat (destruct Hin as [E | Hin]; [injection E as _ <- |]);
    try contradiction.
  - unfold validators.title. destruct (isEmpty v); [now left | now right].
  - unfold validators.isbn. destruct (isEmpty v); [now left|].
    destruct (test isbnPattern (safeTrim v)); [now right | now left].
  - unfold validators.author. destruct (isEmpty v); [now left | now right].
  - unfold validators.coverImageUrl. destruct (isEmpty v); [now left|].
    destruct (test patterns.coverImageUrl (safeTrim v));
      [now right | now left].
  - unfold validators.price. destruct (isEmpty v); [now left|].
    destruct (ToNumber.gt_zero (safeTrim v)); [now left | now right].
  - unfold validators.pageCount. destruct (isEmpty v); [now left|].
    destruct (test patterns.pageCount (safeTrim v)); [now right | now left].
  - unfold validators.publishDate. destruct (isEmpty v); [now left|].
    destruct (test patterns.publishDate (safeTrim v)); [now right | now left].
  - unfold validators.detail. destruct (isEmpty v); [now left | now right].
Qed.

(** X14.  A missing record fails with the fixed message and no field; a record
    that is present fails, if it does, with a field. *)
Lemma validateBook_field (book : option Book.t) :
  match book with
  | None =>
      validateBook book
      = {| isValid := false;
           message := Some "책 데이터가 필요합니다.";
           field := None |}
  | Some _ =>
      isValid (validateBook book) = false -> field (validateBook book) <> None
  end.
Proof.
  destruct book as [b|]; [|reflexivity].
  rewrite validateBook_present.
  destruct (isEmpty (Book.title b)); [easy|].
  destruct (isEmpty (Book.author b)); [easy|].
  destruct (Book.detail b) as [d|]; [|easy].
  destruct (@field_validator_result "pageCount" validators.pageCount
              (Detail.pageCount d)) as [[H1 H2] | H];
    [simpl; tauto | now rewrite H1 | rewrite H; cbn [isValid valid] ].
  destruct (@field_validator_result "coverImageUrl" validators.coverImageUrl
              (Detail.coverImageUrl d)) as [[H1 H2] | H'];
    [simpl; tauto | now rewrite H1 | now rewrite H' ].
Qed.

(** ** Single fields *)

(** C7.  ['toString'] is no entry of the validator table, yet
    [validators['toString']] is found on [Object.prototype]: [validateField]
    calls it instead of answering with the unknown-field result. *)
Theorem validateField_inherited_member (v : value) :
  own validators.table "toString" = None /\
  validateField "toString" v = Foreign "toString" /\
  validateField "toString" v
  <> Returns {| isValid := true;
                message := Some "알 수 없는 필드입니다.";
                field := None |}.
Proof. repeat split. discriminate. Qed.

(** X11.  Every name inherited from [Object.prototype] is looked up with
    success and called like a validator: no entry of the table shadows
    it. *)
Lemma validateField_inherited (name : string) (v : value) :
  In name object_prototype_keys -> validateField name v = Foreign name.
Proof.
  unfold object_prototype_keys. intros H.
  repeat (destruct H as [<- | H]; [reflexivity|]). contradiction.
Qed.

(** X10.  A name that is neither in the table nor inherited gets the
    unknown-field result, which passes. *)
Lemma validateField_unknown (name : string) (v : value) :
  own validators.table name = None ->
  existsb (String.eqb name) object_prototype_keys = false ->
  validateField name v
  = Returns {| isValid := true;
               message := Some "알 수 없는 필드입니다.";
               field := None |}.
Proof.
  intros H1 H2. unfold validateField, validators_get. now rewrite H1, H2.
Qed.

(** A name of the table gets the result of its validator. *)
Lemma validateField_known (name : string) (f : value -> result) (v : value) :
  own validators.table name = Some f ->
  validateField name v = Returns (f v).
Proof.
  intros H. unfold validateField, validators_get. now rewrite H.
Qed.

(** C9.  ['2024-01-15'] passes; ['2024/01/15'] fails with field
    [publishDate] but without a message: the table [messages.format] has no
    entry [publishDate]. *)
Theorem publishDate_format_failure_has_no_message :
  validateField "publishDate" (Samples.text "2024-01-15") = Returns valid /\
  validateField "publishDate" (Samples.text "2024/01/15")
  = Returns {| isValid := false;
               message := None;
               field := Some "publishDate" |} /\
  message_at "format" "publishDate" = None.
Proof. repeat split. Qed.

(** The rule itself is as described: the required check first, then the
    date pattern on the trimmed value. *)
Lemma publishDate_result (v : value) :
  (isEmpty v = true ->
   validators.publishDate v
   = failure (Some "출판일을 입력해주세요.") "publishDate") /\
  (isEmpty v = false -> date_spec (safeTrim v) ->
   validators.publishDate v = valid) /\
  (isEmpty v = false -> ~ date_spec (safeTrim v) ->
   validators.publishDate v = failure None "publishDate").
Proof.
  unfold validators.publishDate. repeat split.
  - now intros ->.
  - intros -> H. apply publishDate_pattern_spec in H. now rewrite H.
  - intros -> H.
    destruct (test patterns.publishDate (safeTrim v)) eqn:E; [|reflexivity].
    now apply publishDate_pattern_spec in E.
Qed.

(** ** More on the patterns *)

Section Repetition.
Local Open Scope list_scope.

(** A word of [r*] is a sequence of words of [r]. *)
Lemma Matches_Star_concat (r : regex) (s : jsstring) :
  Matches (Star r) s <->
  exists ss, s = List.concat ss /\ Forall (Matches r) ss.
Proof.
  split.
  - intros H. remember (Star r) as r' eqn:Er.
    induction H; try discriminate.
    + now exists [].
    + injection Er as ->. destruct (IHMatches2 eq_refl) as (ss & -> & Hss).
      exists (s1 :: ss). split; [reflexivity | now constructor].
  - intros (ss & -> & Hss). induction Hss; simpl; now constructor.
Qed.

Lemma Matches_Plus_concat (r : regex) (s : jsstring) :
  Matches (Plus r) s <->
  exists ss, ss <> [] /\ s = List.concat ss /\ Forall (Matches r) ss.
Proof.
  unfold Plus. rewrite Matches_Cat. split.
  - intros (s1 & s2 & -> & H1 & H2).
    apply Matches_Star_concat in H2 as (ss & -> & Hss).
    exists (s1 :: ss). repeat split; [discriminate | now constructor].
  - intros (ss & Hne & -> & Hss). destruct Hss as [|s1 ss H1 Hss];
      [contradiction|].
    exists s1, (List.concat ss). repeat split; [exact H1|].
    apply Matches_Star_concat. now exists ss.
Qed.

Lemma Matches_Plus_Class (p : code_unit -> bool) (s : jsstring) :
  Matches (Plus (Class p)) s <-> s <> [] /\ forallb p s = true.
Proof.
  unfold Plus. rewrite Matches_Cat. split.
  - intros (s1 & s2 & -> & H1 & H2).
    apply Matches_Class in H1 as (c & -> & Hc).
    apply Matches_Star_Class in H2. simpl. rewrite Hc.
    split; [discriminate | exact H2].
  - intros [Hne H]. destruct s as [|c s]; [contradiction|].
    simpl in H. apply andb_true_iff in H as [Hc Hs].
    exists [c], s. repeat split; [now constructor|].
    now apply Matches_Star_Class.
Qed.

End Repetition.

(** [isbnPattern] accepts exactly the texts of the shape it spells out. *)
Lemma isbnPattern_shape (s : jsstring) :
  test isbnPattern s = true <-> isbn_shape s.
Proof.
  rewrite test_ok. unfold isbn_shape, run. split.
  - unfold isbnPattern, Seq, Opt, Str; cbn [fold_right].
    cbn [list_ascii_of_string Lit].
    intros H. split_match; repeat rewrite app_nil_r;
      (eexists _, _, _, _, _; split; [reflexivity|];
       split; [first [now left | now right; left | now right; right]|];
       now repeat split).
  - intros (prefix & g1 & g2 & g3 & g4 & -> & Hp & H1 & H2 & H3 & H4).
    rewrite <- (app_nil_r g4).
    unfold isbnPattern, Seq; cbn [fold_right].
    repeat (apply MCat;
            [ first [ now apply Matches_Chr
                    | apply Matches_Range_Class; [lia | assumption]
                    | idtac ] | ]); [|constructor].
    apply test_ok. now destruct Hp as [-> | [-> | ->]].
Qed.

Section UrlPattern.
Local Open Scope list_scope.

Let scheme_re : regex := Opt (Seq [Str "http"; Opt (Chr "s"); Str "://"]).
Let label_re : regex := Plus (Class label_char).
Let segment_re : regex := Seq [label_re; Chr "."].
Let path_re : regex := Opt (Seq [Chr "/"; Star (Class nonspace)]).

Lemma url_pattern_parts :
  patterns.coverImageUrl
  = Seq [scheme_re; Plus segment_re; label_re; path_re].
Proof. reflexivity. Qed.

Lemma url_scheme (s : jsstring) :
  Matches scheme_re s <->
  s = [] \/ s = lit "http://" \/ s = lit "https://".
Proof.
  split.
  - unfold scheme_re, Seq, Opt, Str; cbn [fold_right].
    cbn [list_ascii_of_string Lit].
    intros H. split_match; [now left | right; now left | right; now right].
  - intros [-> | [-> | ->]]; now apply test_ok.
Qed.

Lemma url_label (s : jsstring) : Matches label_re s <-> is_label s.
Proof. apply Matches_Plus_Class. Qed.

Lemma url_segment (s : jsstring) :
  Matches segment_re s <-> exists l, is_label l /\ s = l ++ [46%N].
Proof.
  unfold segment_re, Seq; cbn [fold_right]. split.
  - intros H. apply Matches_Cat in H as (l & r & -> & Hl & H).
    apply Matches_Cat in H as (d & e & -> & Hd & He).
    apply Matches_Chr in Hd as ->. apply Matches_Eps in He as ->.
    apply url_label in Hl. exists l. now rewrite app_nil_r.
  - intros (l & Hl & ->). apply MCat; [now apply url_label|].
    apply (MCat (s1 := [46%N]) (s2 := [])); [now apply Matches_Chr|].
    constructor.
Qed.

Lemma url_segments (ss : list jsstring) :
  Forall (Matches segment_re) ss <->
  exists labels,
    ss = map (fun l => l ++ [46%N]) labels /\ Forall is_label labels.
Proof.
  split.
  - induction 1 as [|s ss Hs _ (labels & -> & IH)].
    + now exists [].
    + apply url_segment in Hs as (l & Hl & ->).
      exists (l :: labels). split; [reflexivity | now constructor].
  - intros (labels & -> & H).
    induction H as [|l labels Hl _ IH]; simpl; constructor; [|exact IH].
    apply url_segment. exists l. now split.
Qed.

Lemma url_path (s : jsstring) :
  Matches path_re s <->
  s = [] \/ exists p, s = 47%N :: p /\ forallb nonspace p = true.
Proof.
  unfold path_re, Seq, Opt; cbn [fold_right]. split.
  - intros H. apply Matches_Alt in H as [H | H].
    + apply Matches_Eps in H. now left.
    + right. apply Matches_Cat in H as (d & r & -> & Hd & H).
      apply Matches_Cat in H as (p & e & -> & Hp & He).
      apply Matches_Chr in Hd as ->. apply Matches_Eps in He as ->.
      apply Matches_Star_Class in Hp. exists p. now rewrite app_nil_r.
  - intros [-> | (p & -> & Hp)]; [apply MAltL; constructor | apply MAltR].
    apply (MCat (s1 := [47%N])); [now apply Matches_Chr|].
    rewrite <- (app_nil_r p).
    apply MCat; [now apply Matches_Star_Class | constructor].
Qed.

(** [patterns.coverImageUrl] accepts exactly the texts of the shape it
    spells out. *)
Lemma coverImageUrl_pattern_shape (s : jsstring) :
  test patterns.coverImageUrl s = true <-> url_shape s.
Proof.
  rewrite test_ok, url_pattern_parts. unfold Seq; cbn [fold_right]. split.
  - intros H.
    apply Matches_Cat in H as (s0 & r0 & -> & H0 & H).
    apply Matches_Cat in H as (s1 & r1 & -> & H1 & H).
    apply Matches_Cat in H as (s2 & r2 & -> & H2 & H).
    apply Matches_Cat in H as (s3 & r3 & -> & H3 & H).
    apply Matches_Eps in H as ->. rewrite app_nil_r.
    apply url_scheme in H0. apply url_label in H2. apply url_path in H3.
    apply Matches_Plus_concat in H1 as (ss & Hne & -> & Hss).
    apply url_segments in Hss as (labels & -> & Hl).
    exists s0, labels, s2, s3. repeat split; try assumption.
    + intros ->. now apply Hne.
    + apply H2.
    + apply H2.
  - intros (scheme & labels & last & path & -> & Hs & Hne & Hl & Hlast & Hp).
    rewrite <- (app_nil_r path).
    apply MCat; [now apply url_scheme|].
    apply MCat; [|apply MCat; [now apply url_label|]].
    + apply Matches_Plus_concat.
      exists (map (fun l => l ++ [46%N]) labels). repeat split.
      * destruct labels; [contradiction | discriminate].
      * apply url_segments. now exists labels.
    + apply MCat; [now apply url_path | constructor].
Qed.

End UrlPattern.

(** Nothing between ['!'] and ['~'] is white space. *)
Lemma printable_not_space (c : code_unit) :
  (33 <= c <= 126)%N -> isSpace c = false.
Proof.
  intros H. unfold isSpace, isWhiteSpace, isLineTerminator, between.
  repeat match goal with
    | |- context [(c =? ?k)%N] =>
        replace (c =? k)%N with false by (symmetry; apply N.eqb_neq; lia)
    end.
  replace (8192 <=? c)%N with false; [reflexivity|].
  symmetry. apply N.leb_gt. lia.
Qed.

Lemma label_char_bounds (c : code_unit) :
  label_char c = true -> (45 <= c <= 122)%N.
Proof.
  unfold label_char, word, upper, lower, digit, isDigit, between.
  rewrite !orb_true_iff, !andb_true_iff, !N.leb_le, !N.eqb_eq. lia.
Qed.

Lemma label_nonspace (l : jsstring) :
  forallb label_char l = true -> forallb nonspace l = true.
Proof.
  rewrite !forallb_forall. intros H c Hc. unfold nonspace.
  rewrite printable_not_space; [reflexivity|].
  apply H, label_char_bounds in Hc. lia.
Qed.

Lemma segments_nonspace (labels : list jsstring) :
  Forall is_label labels ->
  forallb nonspace (List.concat (map (fun l => (l ++ [46%N])%list) labels))
  = true.
Proof.
  induction 1 as [|l labels [_ Hl] _ IH]; cbn [map List.concat];
    [reflexivity|].
  rewrite !forallb_app, !andb_true_iff.
  repeat split; [now apply label_nonspace | exact IH].
Qed.

(** An accepted cover URL has a dot and no white space anywhere. *)
Lemma url_shape_dot_no_space (s : jsstring) :
  url_shape s -> In 46%N s /\ forallb nonspace s = true.
Proof.
  intros (scheme & labels & last & path & -> & Hs & Hne & Hl & [_ Hlast] & Hp).
  split.
  - apply in_or_app. right. apply in_or_app. left.
    destruct labels as [|l labels]; [contradiction|]. simpl.
    apply in_or_app. left. apply in_or_app. right. now left.
  - rewrite !forallb_app, !andb_true_iff. repeat split.
    + now destruct Hs as [-> | [-> | ->]].
    + now apply segments_nonspace.
    + now apply label_nonspace.
    + destruct Hp as [-> | (p & -> & Hp)]; [reflexivity|].
      cbn [forallb]. apply andb_true_iff. split; [reflexivity | exact Hp].
Qed.

(** X16.  [patterns.studentNumber]: a letter and five digits. *)
Lemma studentNumber_pattern_shape (s : jsstring) :
  test patterns.studentNumber s = true <->
  exists c ds,
    s = c :: ds /\ upper c || lower c = true /\
    List.length ds = 5 /\ forallb isDigit ds = true.
Proof.
  rewrite test_ok. unfold patterns.studentNumber, Seq; cbn [fold_right].
  split.
  - intros H. split_match. rewrite app_nil_r. simpl.
    eexists _, _. split; [reflexivity|]. now repeat split.
  - intros (c & ds & -> & Hc & Hl & Hd).
    apply (MCat (s1 := [c]) (s2 := ds)); [now constructor|].
    rewrite <- (app_nil_r ds).
    apply MCat; [now apply Matches_Exactly_Class | constructor].
Qed.

(** X17.  [patterns.phoneNumber]: one or more digits, hyphens or white-space
    characters, in any order. *)
Lemma phoneNumber_pattern_shape (s : jsstring) :
  test patterns.phoneNumber s = true <->
  s <> [] /\ forallb phone_char s = true.
Proof.
  rewrite test_ok. apply (Matches_Plus_Class phone_char).
Qed.

(** ** What each validator accepts *)

(** The two-step validators pass when the value is not empty and its
    trimmed text matches. *)
Lemma isbn_isValid (v : value) :
  isValid (validators.isbn v)
  = negb (isEmpty v) && test isbnPattern (safeTrim v).
Proof.
  unfold validators.isbn. destruct (isEmpty v); [reflexivity|].
  now destruct (test isbnPattern (safeTrim v)).
Qed.

Lemma pageCount_isValid (v : value) :
  isValid (validators.pageCount v)
  = negb (isEmpty v) && test patterns.pageCount (safeTrim v).
Proof.
  unfold validators.pageCount. destruct (isEmpty v); [reflexivity|].
  now destruct (test patterns.pageCount (safeTrim v)).
Qed.

Lemma publishDate_isValid (v : value) :
  isValid (validators.publishDate v)
  = negb (isEmpty v) && test patterns.publishDate (safeTrim v).
Proof.
  unfold validators.publishDate. destruct (isEmpty v); [reflexivity|].
  now destruct (test patterns.publishDate (safeTrim v)).
Qed.

Lemma coverImageUrl_isValid (v : value) :
  isValid (validators.coverImageUrl v)
  = negb (isEmpty v) && test patterns.coverImageUrl (safeTrim v).
Proof.
  unfold validators.coverImageUrl. destruct (isEmpty v); [reflexivity|].
  now destruct (test patterns.coverImageUrl (safeTrim v)).
Qed.

Lemma passes_iff (e t : bool) (P : Prop) :
  (t = true <-> P) -> negb e && t = true <-> e = false /\ P.
Proof.
  intros H. rewrite andb_true_iff, negb_true_iff. now rewrite H.
Qed.

(** X1.  An ISBN passes exactly when it is not empty and its trimmed text has
    the shape of [isbnPattern]. *)
Theorem isbn_valid_iff (v : value) :
  isValid (validators.isbn v) = true <->
  isEmpty v = false /\ isbn_shape (safeTrim v).
Proof.
  rewrite isbn_isValid. apply passes_iff, isbnPattern_shape.
Qed.

(** X3.  A page count passes exactly when it is not empty and its trimmed text
    is a non-zero digit followed by digits. *)
Theorem pageCount_valid_iff (v : value) :
  isValid (validators.pageCount v) = true <->
  isEmpty v = false /\ positive_integer_spec (safeTrim v).
Proof.
  rewrite pageCount_isValid. apply passes_iff, pageCount_pattern_spec.
Qed.

(** X4.  A publish date passes exactly when it is not empty and its trimmed text
    is four digits, a hyphen, two digits, a hyphen and two digits; the
    digits are not checked against the calendar. *)
Theorem publishDate_valid_iff (v : value) :
  isValid (validators.publishDate v) = true <->
  isEmpty v = false /\ date_spec (safeTrim v).
Proof.
  rewrite publishDate_isValid. apply passes_iff, publishDate_pattern_spec.
Qed.

(** X5.  A cover URL passes exactly when it is not empty and its trimmed text
    has the shape of [patterns.coverImageUrl]. *)
Theorem coverImageUrl_valid_iff (v : value) :
  isValid (validators.coverImageUrl v) = true <->
  isEmpty v = false /\ url_shape (safeTrim v).
Proof.
  rewrite coverImageUrl_isValid. apply passes_iff, coverImageUrl_pattern_shape.
Qed.

(** X6.  A cover URL that passes has a dot and, once trimmed, no white space. *)
Theorem coverImageUrl_valid_dot_no_space (v : value) :
  isValid (validators.coverImageUrl v) = true ->
  In 46%N (safeTrim v) /\ forallb nonspace (safeTrim v) = true.
Proof.
  rewrite coverImageUrl_isValid. intros H.
  apply andb_true_iff in H as [_ H].
  now apply url_shape_dot_no_space, coverImageUrl_pattern_shape.
Qed.

Lemma coverImageUrl_valid_dot_no_space_witness :
  In 46%N (safeTrim (Samples.text " https://example.com/a.jpg ")) /\
  forallb nonspace (safeTrim (Samples.text " https://example.com/a.jpg "))
  = true.
Proof.
  apply coverImageUrl_valid_dot_no_space. vm_compute. reflexivity.
Defined.

Lemma isbn_needs_three_hyphens_witness :
  hyphens (safeTrim (Samples.text " 9783-16-148410-0 ")) = 3.
Proof.
  apply isbn_needs_three_hyphens. vm_compute. reflexivity.
Defined.

(** ** More on single fields and whole records *)

Lemma own_In (A : Type) (o : list (string * A)) (k : string) (a : A) :
  own o k = Some a -> In (k, a) o.
Proof.
  unfold own. destruct (find _ o) as [[k' a']|] eqn:E; [|discriminate].
  intros [= <-]. apply find_some in E as [Hin Hk].
  apply String.eqb_eq in Hk. simpl in Hk. now subst.
Qed.

(** X9.  [validateField] reports a failure only for the eight names of the
    table, and the failure names the field that was asked about, except
    that [detail] answers with the field [publishDate]. *)
Theorem validateField_failure_names_field
        (name : string) (v : value) (r : result) :
  validateField name v = Returns r ->
  isValid r = false ->
  In name (map fst validators.table) /\
  field r = Some (if String.eqb name "detail" then "publishDate" else name).
Proof.
  unfold validateField, validators_get.
  destruct (own validators.table name) as [f|] eqn:E.
  - apply own_In in E. unfold validators.table in E.
    intros [= <-] Hv.
    repeat (destruct E as [E | E]; [injection E as <- <- |]);
      try contradiction; (split; [simpl; tauto|]).
    + unfold validators.title in *. now destruct (isEmpty v).
    + unfold validators.isbn in *. destruct (isEmpty v); [easy|].
      now destruct (test isbnPattern (safeTrim v)).
    + unfold validators.author in *. now destruct (isEmpty v).
    + unfold validators.coverImageUrl in *. destruct (isEmpty v); [easy|].
      now destruct (test patterns.coverImageUrl (safeTrim v)).
    + unfold validators.price in *. destruct (isEmpty v); [easy|].
      now destruct (ToNumber.gt_zero (safeTrim v)).
    + unfold validators.pageCount in *. destruct (isEmpty v); [easy|].
      now destruct (test patterns.pageCount (safeTrim v)).
    + unfold validators.publishDate in *. destruct (isEmpty v); [easy|].
      now destruct (test patterns.publishDate (safeTrim v)).
    + unfold validators.detail in *. now destruct (isEmpty v).
  - destruct (existsb (String.eqb name) object_prototype_keys);
      [discriminate|].
    now intros [= <-].
Qed.

Lemma validateField_failure_names_field_witness :
  In "isbn" (map fst validators.table) /\
  field (validators.isbn (Samples.text "1234")) = Some "isbn".
Proof.
  apply (@validateField_failure_names_field
           "isbn" (Samples.text "1234")
           (validators.isbn (Samples.text "1234")));
    reflexivity.
Defined.

(** X12.  A failure of [validateBook] on a record that is present names the
    title, the author, the page count or the cover URL, and it is the very
    result [validateField] gives for that name and the value that was
    checked. *)
Theorem validateBook_failure_is_field_failure (b : Book.t) :
  isValid (validateBook (Some b)) = false ->
  exists name,
    In name ["title"; "author"; "pageCount"; "coverImageUrl"] /\
    field (validateBook (Some b)) = Some name /\
    validateField name (checked_value b name)
    = Returns (validateBook (Some b)).
Proof.
  rewrite validateBook_present.
  destruct (isEmpty (Book.title b)) eqn:Et.
  { intros _. exists "title". split; [simpl; tauto|].
    split; [reflexivity|].
    change (validateField "title" (checked_value b "title"))
      with (Returns (validators.title (Book.title b))).
    now rewrite title_result, Et. }
  destruct (isEmpty (Book.author b)) eqn:Ea.
  { intros _. exists "author". split; [simpl; tauto|].
    split; [reflexivity|].
    change (validateField "author" (checked_value b "author"))
      with (Returns (validators.author (Book.author b))).
    now rewrite author_result, Ea. }
  destruct (Book.detail b) as [d|] eqn:Ed; [|discriminate].
  destruct (isValid (validators.pageCount (Detail.pageCount d))) eqn:Ep.
  - destruct (isValid (validators.coverImageUrl (Detail.coverImageUrl d)))
      eqn:Ec; [discriminate|].
    intros _. exists "coverImageUrl". split; [simpl; tauto|]. split.
    + destruct (@field_validator_result
                  "coverImageUrl" validators.coverImageUrl
                  (Detail.coverImageUrl d)) as [[_ H] | H];
        [simpl; tauto | | rewrite H in Ec; discriminate].
      revert H. unfold validators.coverImageUrl.
      destruct (isEmpty (Detail.coverImageUrl d)); [easy|].
      now destruct (test patterns.coverImageUrl
                      (safeTrim (Detail.coverImageUrl d))).
    + unfold checked_value. rewrite Ed. reflexivity.
  - intros _. exists "pageCount". split; [simpl; tauto|]. split.
    + rewrite pageCount_result in *.
      destruct (isEmpty (Detail.pageCount d)); [reflexivity|].
      now destruct (test patterns.pageCount (safeTrim (Detail.pageCount d))).
    + unfold checked_value. rewrite Ed. reflexivity.
Qed.

Lemma validateBook_failure_is_field_failure_witness :
  exists name,
    In name ["title"; "author"; "pageCount"; "coverImageUrl"] /\
    field (validateBook
             (Some (Samples.book_of (Samples.text "Dune") (Samples.text "")
                      None))) = Some name /\
    validateField name
      (checked_value
         (Samples.book_of (Samples.text "Dune") (Samples.text "") None) name)
    = Returns
        (validateBook
           (Some (Samples.book_of (Samples.text "Dune") (Samples.text "")
                    None))).
Proof.
  apply validateBook_failure_is_field_failure. reflexivity.
Defined.

Lemma validateBook_isValid (b : Book.t) :
  isValid (validateBook (Some b))
  = negb (isEmpty (Book.title b)) && negb (isEmpty (Book.author b))
    && match Book.detail b with
       | None => true
       | Some d =>
           (negb (isEmpty (Detail.pageCount d))
            && test patterns.pageCount (safeTrim (Detail.pageCount d)))
           && (negb (isEmpty (Detail.coverImageUrl d))
               && test patterns.coverImageUrl
                    (safeTrim (Detail.coverImageUrl d)))
       end.
Proof.
  rewrite validateBook_present.
  destruct (isEmpty (Book.title b)); [reflexivity|].
  destruct (isEmpty (Book.author b)); [reflexivity|].
  destruct (Book.detail b) as [d|]; [|reflexivity].
  rewrite <- pageCount_isValid, <- coverImageUrl_isValid.
  destruct (isValid (validators.pageCount (Detail.pageCount d))) eqn:Ep;
    [|now rewrite Ep].
  now destruct (isValid (validators.coverImageUrl (Detail.coverImageUrl d)))
    eqn:Ec; [|rewrite Ec].
Qed.

(** X13.  A record that is present passes exactly when its title and author are
    not empty and, if it carries a detail object, the page count of that
    object is a positive integer and its cover URL has the shape of a URL;
    nothing else is looked at. *)
Theorem validateBook_valid_iff (b : Book.t) :
  isValid (validateBook (Some b)) = true <->
  isEmpty (Book.title b) = false /\
  isEmpty (Book.author b) = false /\
  match Book.detail b with
  | None => True
  | Some d =>
      (isEmpty (Detail.pageCount d) = false /\
       positive_integer_spec (safeTrim (Detail.pageCount d))) /\
      (isEmpty (Detail.coverImageUrl d) = false /\
       url_shape (safeTrim (Detail.coverImageUrl d)))
  end.
Proof.
  rewrite validateBook_isValid, !andb_true_iff, !negb_true_iff.
  destruct (Book.detail b) as [d|]; [|intuition congruence].
  rewrite !andb_true_iff, !negb_true_iff.
  rewrite pageCount_pattern_spec, coverImageUrl_pattern_shape. tauto.
Qed.

(** ** Trimming twice *)

Section Trim.
Local Open Scope list_scope.

Lemma trimStart_idem (s : jsstring) : trimStart (trimStart s) = trimStart s.
Proof.
  induction s as [|c s IH]; simpl; [reflexivity|].
  destruct (isSpace c) eqn:E; [exact IH|]. simpl. now rewrite E.
Qed.

(** [trimStart] drops a prefix. *)
Lemma trimStart_suffix (s : jsstring) : exists w, s = w ++ trimStart s.
Proof.
  induction s as [|c s [w IH]]; simpl; [now exists []|].
  destruct (isSpace c); [|now exists []].
  exists (c :: w). simpl. now rewrite <- IH.
Qed.

(** [trimEnd] drops a suffix. *)
Lemma trimEnd_prefix (s : jsstring) : exists w, s = trimEnd s ++ w.
Proof.
  unfold trimEnd. destruct (trimStart_suffix (rev s)) as [w E].
  exists (rev w). rewrite <- rev_app_distr, <- E. now rewrite rev_involutive.
Qed.

Lemma trimEnd_idem (s : jsstring) : trimEnd (trimEnd s) = trimEnd s.
Proof.
  unfold trimEnd. now rewrite rev_involutive, trimStart_idem.
Qed.

(** Trimming the end leaves a clean start clean. *)
Lemma trimStart_trimEnd (s : jsstring) :
  trimStart s = s -> trimStart (trimEnd s) = trimEnd s.
Proof.
  intros H. destruct (trimEnd_prefix s) as [w E].
  destruct (trimEnd s) as [|c t]; [reflexivity|].
  rewrite E in H. simpl in H |- *.
  destruct (isSpace c); [|reflexivity].
  exfalso. destruct (trimStart_suffix (t ++ w)) as [w' E'].
  rewrite H in E'. apply (f_equal (@List.length _)) in E'.
  rewrite !length_app in E'. cbn [List.length] in E'.
  rewrite ?length_app in E'. lia.
Qed.

(** [String.prototype.trim] is idempotent. *)
Lemma trim_idem (s : jsstring) : trim (trim s) = trim s.
Proof.
  unfold trim.
  rewrite (trimStart_trimEnd (trimStart_idem s)).
  apply trimEnd_idem.
Qed.

End Trim.

Lemma isEmpty_trimmed (s : jsstring) :
  isEmpty (VString (trim s)) = false <-> trim s <> [].
Proof.
  unfold isEmpty. rewrite trim_idem.
  destruct (trim s); simpl; [easy | split; [discriminate | reflexivity]].
Qed.

Lemma positive_integer_not_empty (v : jsstring) :
  positive_integer_spec (trim v) -> isEmpty (VString v) = false.
Proof.
  intros (c & ds & E & _). unfold isEmpty. now rewrite E.
Qed.

Lemma url_not_empty (v : jsstring) :
  url_shape (trim v) -> isEmpty (VString v) = false.
Proof.
  intros (scheme & labels & last & path & E & _ & _ & _ & [Hl _] & _).
  assert (H : List.length (trim v) <> 0).
  { rewrite E. destruct last as [|c last]; [contradiction|].
    rewrite !length_app. cbn [List.length]. lia. }
  unfold isEmpty. now destruct (List.length (trim v)).
Qed.

(** ** The form *)

(** X18.  The form goes on to the API exactly when the title and the author are
    not blank, the page count is a positive integer and the cover URL has
    the shape of a URL, each read after trimming: the record built from the
    form always carries a detail object, so the page count and the cover URL
    are always checked. *)
Theorem form_accepted_iff (formData : Main.FormData) :
  isValid (Main.validation formData) = true <->
  trim (Main.get_or_empty formData "title") <> [] /\
  trim (Main.get_or_empty formData "author") <> [] /\
  positive_integer_spec (trim (Main.get_or_empty formData "pageCount")) /\
  url_shape (trim (Main.get_or_empty formData "coverImageUrl")).
Proof.
  unfold Main.validation.
  rewrite validateBook_isValid, !andb_true_iff, !negb_true_iff.
  cbn [Main.getFormData Book.title Book.author Book.detail
       Detail.pageCount Detail.coverImageUrl safeTrim].
  rewrite !andb_true_iff, !negb_true_iff, !isEmpty_trimmed.
  rewrite pageCount_pattern_spec, coverImageUrl_pattern_shape. split.
  - intros ([Ht Ha] & [_ Hp] & [_ Hu]). now repeat split.
  - intros (Ht & Ha & Hp & Hu). repeat split; try assumption.
    + now apply positive_integer_not_empty.
    + now apply url_not_empty.
Qed.

(** X19.  The other inputs of the form (isbn, price, publish date, language,
    publisher, edition, description) never change the outcome: two forms
    with the same title, author, page count and cover URL get the same
    result. *)
Theorem form_ignores_other_inputs (f g : Main.FormData) :
  f "title" = g "title" ->
  f "author" = g "author" ->
  f "pageCount" = g "pageCount" ->
  f "coverImageUrl" = g "coverImageUrl" ->
  Main.validation f = Main.validation g.
Proof.
  intros Ht Ha Hp Hu. unfold Main.validation.
  rewrite !validateBook_present.
  cbn [Main.getFormData Book.title Book.author Book.detail
       Detail.pageCount Detail.coverImageUrl].
  unfold Main.get_or_empty. now rewrite Ht, Ha, Hp, Hu.
Qed.

Lemma form_ignores_other_inputs_witness :
  Main.validation
    (Main.form_of "Dune" "Herbert" "300" "example.com" None)
  = Main.validation
      (Main.form_of "Dune" "Herbert" "300" "example.com"
         (Some (lit "not checked"))).
Proof.
  apply form_ignores_other_inputs; reflexivity.
Defined.

(** X20.  A form with a title and an author whose page count is blank is held
    back, the page count is the field to focus, and the message to show is
    undefined. *)
Theorem form_blank_pageCount (formData : Main.FormData) :
  trim (Main.get_or_empty formData "title") <> [] ->
  trim (Main.get_or_empty formData "author") <> [] ->
  trim (Main.get_or_empty formData "pageCount") = [] ->
  Main.validation formData
  = {| isValid := false; message := None; field := Some "pageCount" |}.
Proof.
  intros Ht Ha Hp. unfold Main.validation. rewrite validateBook_present.
  cbn [Main.getFormData Book.title Book.author Book.detail
       Detail.pageCount Detail.coverImageUrl].
  apply isEmpty_trimmed in Ht, Ha. rewrite Ht, Ha, pageCount_result.
  unfold isEmpty. now rewrite Hp.
Qed.

Lemma form_blank_pageCount_witness :
  Main.validation
    (Main.form_of " Dune " "Herbert" "  " "http://example.com/a.jpg" None)
  = {| isValid := false; message := None; field := Some "pageCount" |}.
Proof.
  apply form_blank_pageCount; vm_compute; [discriminate | discriminate |
                                           reflexivity].
Defined.

(** ** Witnesses for the price and the field lookup *)

Lemma price_rejects_positive_integers_witness :
  validators.price (Samples.text "250")
  = failure (Some "가격은 0보다 큰 숫자여야 합니다.") "price".
Proof.
  apply price_rejects_positive_integers. reflexivity.
Defined.

Lemma validateField_unknown_witness :
  validateField "nonexistent" (Samples.text "x")
  = Returns {| isValid := true;
               message := Some "알 수 없는 필드입니다.";
               field := None |}.
Proof.
  apply validateField_unknown; reflexivity.
Defined.

Lemma validateField_inherited_witness :
  validateField "valueOf" VNull = Foreign "valueOf".
Proof.
  apply validateField_inherited. simpl. tauto.
Defined.

Lemma failure_has_message_witness :
  message (validators.isbn (Samples.text "1234")) <> None.
Proof.
  apply (@failure_has_message "isbn" validators.isbn (Samples.text "1234"));
    [simpl; tauto | reflexivity].
Defined.
